(** * Subscription pricing: checkout total resolution, admin draft calculator,
      add-on aggregation and promo clamp.

    Shallow embedding of the pricing logic of

    - [SuperAdminSubscriptions] (admin draft calculator: [asNumber],
      [computeAnnualBase], [computeAutoPricePerYear], the per-duration view
      and the manual-lock switch),
    - [Billing] (checkout: [discountByMonths], [baseTotalUsd],
      [totalAfterPromoUsd], [totalAfterPromoIdr], [addOnsTotal]),
    - [useSubscriptionAddOns] (the [total] reducer),

    and of the code around it: the plan, add-on and TLD price forms of
    [SuperAdminSubscriptions] ([activeDurationYears], the effect that
    completes the draft, "Add Plan", [fetchPlans], [savePlans], [saveAddOns],
    [normalizeTld], [fetchDomainPricing], [saveDomainPricing]), the promo
    revalidation of [Billing], the keyword and result table of [ChooseDomain]
    and the checks of [onSave] in [useMidtransIntegration].

    Numbers.  A JavaScript [number] is modelled as an exact rational, plus the
    three non-finite values [Infinity], [-Infinity] and [NaN] that
    [Number.isFinite] tells apart from the rest.  Arithmetic on finite values
    is exact: binary64 rounding and the sign of zero are not represented.
    [null] and [undefined] are [None] of an [option].

    Strings.  A string is a sequence of 8-bit code units; [trim],
    [toLowerCase], the whitespace patterns and the printing of a number are
    parameters of the sections that use them. *)

From Stdlib Require Import ZArith QArith Qcanon Qround Lia Ascii.
From stdpp Require Import gmap strings list fin_maps functions sorting.

(* ===================================================================== *)
(** ** JavaScript numbers *)
(* ===================================================================== *)

Module Js.

Inductive number : Type :=
  | Fin (q : Qc)
  | PInf
  | NInf
  | NaN.

#[global] Instance number_eq_dec : EqDecision number.
Proof. solve_decision. Defined.

(** Numbers are used as keys of a [Map]: they are countable. *)
Definition number_code (n : number) : Qc + nat :=
  match n with
  | Fin q => inl q
  | PInf => inr 0%nat
  | NInf => inr 1%nat
  | NaN => inr 2%nat
  end.

Definition number_decode (c : Qc + nat) : number :=
  match c with
  | inl q => Fin q
  | inr 0%nat => PInf
  | inr 1%nat => NInf
  | inr _ => NaN
  end.

#[global] Instance number_countable : Countable number.
Proof.
  refine (inj_countable' number_code number_decode _).
  by intros [].
Defined.

Definition ofZ (z : Z) : number := Fin (Qc_of_Z z).

Definition zero : number := ofZ 0.

(** [Number.isFinite] *)
Definition isFinite (n : number) : bool :=
  match n with Fin _ => true | _ => false end.

(** Truthiness of a number: everything but [0] and [NaN]. *)
Definition truthy (n : number) : bool :=
  match n with
  | Fin q => negb (bool_decide (q = 0%Qc))
  | PInf | NInf => true
  | NaN => false
  end.

Definition neg (a : number) : number :=
  match a with
  | Fin q => Fin (- q)%Qc
  | PInf => NInf
  | NInf => PInf
  | NaN => NaN
  end.

Definition add (a b : number) : number :=
  match a, b with
  | Fin x, Fin y => Fin (x + y)%Qc
  | NaN, _ | _, NaN => NaN
  | PInf, NInf | NInf, PInf => NaN
  | PInf, _ | _, PInf => PInf
  | NInf, _ | _, NInf => NInf
  end.

Definition sub (a b : number) : number := add a (neg b).

(** Sign of a finite value, used by the products and quotients that involve
    an infinity. *)
Definition sgn (q : Qc) : comparison := (q ?= 0)%Qc.

Definition mul (a b : number) : number :=
  match a, b with
  | Fin x, Fin y => Fin (x * y)%Qc
  | NaN, _ | _, NaN => NaN
  | Fin x, PInf | PInf, Fin x =>
      match sgn x with Eq => NaN | Gt => PInf | Lt => NInf end
  | Fin x, NInf | NInf, Fin x =>
      match sgn x with Eq => NaN | Gt => NInf | Lt => PInf end
  | PInf, PInf | NInf, NInf => PInf
  | PInf, NInf | NInf, PInf => NInf
  end.

Definition div (a b : number) : number :=
  match a, b with
  | NaN, _ | _, NaN => NaN
  | Fin x, Fin y =>
      match sgn y with
      | Eq => match sgn x with Eq => NaN | Gt => PInf | Lt => NInf end
      | _ => Fin (x / y)%Qc
      end
  | Fin _, (PInf | NInf) => zero
  | PInf, Fin y => match sgn y with Lt => NInf | _ => PInf end
  | NInf, Fin y => match sgn y with Lt => PInf | _ => NInf end
  | (PInf | NInf), (PInf | NInf) => NaN
  end.

(** [a < b]; every comparison with [NaN] is false. *)
Definition ltb (a b : number) : bool :=
  match a, b with
  | NaN, _ | _, NaN => false
  | Fin x, Fin y => bool_decide (x < y)%Qc
  | NInf, NInf => false
  | NInf, _ => true
  | _, PInf => match a with PInf => false | _ => true end
  | _, _ => false
  end.

Definition gtb (a b : number) : bool := ltb b a.

(** [a === b] on numbers: [NaN] differs from itself. *)
Definition strictEq (a b : number) : bool :=
  match a, b with
  | NaN, _ | _, NaN => false
  | _, _ => bool_decide (a = b)
  end.

(** [Math.max(a, b)] and [Math.min(a, b)] *)
Definition max (a b : number) : number :=
  match a, b with
  | NaN, _ | _, NaN => NaN
  | _, _ => if ltb a b then b else a
  end.

Definition min (a b : number) : number :=
  match a, b with
  | NaN, _ | _, NaN => NaN
  | _, _ => if ltb b a then b else a
  end.

(** [Math.floor] *)
Definition floor (a : number) : number :=
  match a with
  | Fin q => ofZ (Qfloor q)
  | _ => a
  end.

(** [Math.round]: the nearest integer, a tie going towards [+Infinity]. *)
Definition round (a : number) : number :=
  match a with
  | Fin q => ofZ (Qfloor (q + Q2Qc (1 # 2))%Qc)
  | _ => a
  end.

(** A value that is a [number], [undefined] or [null], and [Number(v)]. *)
Inductive value : Type :=
  | VNum (n : number)
  | VUndefined
  | VNull.

Definition Number (v : value) : number :=
  match v with
  | VNum n => n
  | VUndefined => NaN
  | VNull => zero
  end.

(** [o ?? d] on a nullable number. *)
Definition nullish (o : option number) (d : number) : number :=
  match o with Some n => n | None => d end.

End Js.

Import Js.

(* ===================================================================== *)
(** ** Admin draft calculator ([SuperAdminSubscriptions]) *)
(* ===================================================================== *)

Module Admin.

Inductive WebsitePlanKey : Type := website_only | blog_social | full_digital.

#[global] Instance WebsitePlanKey_eq_dec : EqDecision WebsitePlanKey.
Proof. solve_decision. Defined.

Inductive BaseMode : Type := monthly | yearly.

Record WebsitePlanDurationDraft : Type := {
  discount_percent : number;
  manual_price_per_year : option number;
  is_manual_locked : bool;
}.

#[global] Instance WebsitePlanDurationDraft_eq_dec :
  EqDecision WebsitePlanDurationDraft.
Proof. solve_decision. Defined.

(** [durations] is the object [Record<number, WebsitePlanDurationDraft>],
    keyed by the number of years. *)
Record WebsitePlanPricingDraft : Type := {
  key : WebsitePlanKey;
  label : string;
  base_mode : BaseMode;
  base_price : number;
  durations : gmap number WebsitePlanDurationDraft;
}.

(** [function asNumber(v: unknown, fallback = 0)] *)
Definition asNumber (v : value) (fallback : number) : number :=
  let n := match v with VNum x => x | _ => Number v end in
  if isFinite n then n else fallback.

(** [const computeAnnualBase = (draft) => ...] *)
Definition computeAnnualBase (draft : WebsitePlanPricingDraft) : number :=
  let base := max zero (floor (asNumber (VNum (base_price draft)) zero)) in
  match base_mode draft with
  | monthly => mul base (ofZ 12)
  | yearly => base
  end.

(** [draft.durations?.[years]?.discount_percent] *)
Definition discountOf (draft : WebsitePlanPricingDraft) (years : number) : value :=
  match durations draft !! years with
  | Some d => VNum (discount_percent d)
  | None => VUndefined
  end.

(** [const computeAutoPricePerYear = (draft, years) => ...] *)
Definition computeAutoPricePerYear
    (draft : WebsitePlanPricingDraft) (years : number) : number :=
  let annualBase := computeAnnualBase draft in
  let discount := min (ofZ 100) (max zero (asNumber (discountOf draft years) zero)) in
  round (mul annualBase (sub (ofZ 1) (div discount (ofZ 100)))).

(** The three values rendered for one duration bucket of one service line
    (the body of [activeDurationYears.map((years) => ...)]). *)
Record DurationView : Type := {
  autoPricePerYear : number;
  shownPricePerYear : number;
  totalForDuration : number;
}.

(** [None] is the [TypeError] raised by [d.is_manual_locked] when
    [draft.durations[years]] is [undefined]. *)
Definition durationView
    (draft : WebsitePlanPricingDraft) (years : number) : option DurationView :=
  match durations draft !! years with
  | None => None
  | Some d =>
      let auto := computeAutoPricePerYear draft years in
      let shown :=
        if is_manual_locked d
        then asNumber (VNum (nullish (manual_price_per_year d) auto)) auto
        else auto in
      Some {| autoPricePerYear := auto;
              shownPricePerYear := shown;
              totalForDuration := round (mul shown years) |}
  end.

(** The draft of the selected package: one record per service line. *)
Abbreviation WebsitePlans := (WebsitePlanKey -> WebsitePlanPricingDraft).

Definition setDurations
    (p : WebsitePlanPricingDraft) (ds : gmap number WebsitePlanDurationDraft)
    : WebsitePlanPricingDraft :=
  {| key := key p; label := label p; base_mode := base_mode p;
     base_price := base_price p; durations := ds |}.

(** The updater passed to [setWebsitePlansPricingDraft] by the "Manual"
    switch ([onCheckedChange]).  [None] is the [TypeError] raised when
    [current.durations[years]] is [undefined]. *)
Definition onCheckedChange
    (k : WebsitePlanKey) (years : number) (v : bool) (prev : WebsitePlans)
    : option WebsitePlans :=
  let current := prev k in
  match durations current !! years with
  | None => None
  | Some currentDur =>
      let nextLocked := v in
      let nextManual :=
        if nextLocked
        then Some (asNumber
                     (VNum (nullish (manual_price_per_year currentDur)
                                    (computeAutoPricePerYear current years)))
                     zero)
        else None in
      Some (<[k := setDurations current
                     (<[years := {| discount_percent := discount_percent currentDur;
                                    manual_price_per_year := nextManual;
                                    is_manual_locked := nextLocked |}]>
                        (durations current))]> prev)
  end.

End Admin.

(* ===================================================================== *)
(** ** Subscription add-ons ([useSubscriptionAddOns]) *)
(* ===================================================================== *)

Module SubscriptionAddOns.

Record SubscriptionAddOn : Type := {
  id : string;
  label : string;
  description : option string;
  price_idr : option number;
  is_active : bool;
  sort_order : number;
}.

(** [selected?.[a.id]] as a condition: a missing id is falsy. *)
Definition isSelected (selected : gmap string bool) (a : SubscriptionAddOn) : bool :=
  default false (selected !! id a).

(** The [useMemo] that computes [total] from the fetched [items]. *)
Definition total (items : list SubscriptionAddOn) (selected : gmap string bool)
    : number :=
  if bool_decide (length items = 0%nat) then zero
  else
    fold_left
      (fun sum a =>
         if negb (isSelected selected a) then sum
         else add sum (nullish (price_idr a) zero))
      items zero.

End SubscriptionAddOns.

(* ===================================================================== *)
(** ** Checkout ([Billing]) *)
(* ===================================================================== *)

(** A row of the legacy [order_subscription_plans] setting ([type PlanRow]). *)
Module PlanRow.
Record t : Type := {
  years : number;
  label : string;
  price_usd : number;
  is_active : bool;
  sort_order : number;
}.
End PlanRow.

(** [state.appliedPromo] of the order context. *)
Module AppliedPromo.
Record t : Type := {
  id : string;
  code : string;
  promoName : string;
  discountUsd : number;
}.
End AppliedPromo.

Module Billing.

(** A row of [usePackageDurations]. *)
Record DurationRow : Type := {
  is_active : option bool;
  duration_months : option number;
  discount_percent : option number;
}.

Record Pricing : Type := {
  domainPriceUsd : option number;
  packagePriceUsd : option number;
}.

(** [const addOnsTotal = packageAddOnsTotal + subscriptionAddOnsTotal] *)
Definition addOnsTotal (packageAddOnsTotal subscriptionAddOnsTotal : number)
    : number :=
  add packageAddOnsTotal subscriptionAddOnsTotal.

(** One iteration of the loop that fills [discountByMonths]. *)
Definition discountByMonths_step
    (m : gmap number number) (r : DurationRow) : gmap number number :=
  if bool_decide (is_active r = Some false) then m
  else
    let months := nullish (duration_months r) zero in
    let discount := nullish (discount_percent r) zero in
    if isFinite months && gtb months zero then <[months := discount]> m else m.

Definition discountByMonths (durationRows : list DurationRow)
    : gmap number number :=
  fold_left discountByMonths_step durationRows ∅.

(** Which branch of [baseTotalUsd] produces the result. *)
Inductive PricingSource : Type :=
  | NoDuration
  | DurationDiscount
  | LegacyPlan
  | RawBase.

#[global] Instance PricingSource_eq_dec : EqDecision PricingSource.
Proof. solve_decision. Defined.

(** [(subscriptionPlans || []).find((p) => Number(p?.years) === Number(years))] *)
Definition selectedPlan (subscriptionPlans : list PlanRow.t) (subscriptionYears : number)
    : option PlanRow.t :=
  find (fun p => strictEq (PlanRow.years p) subscriptionYears) subscriptionPlans.

(** [planOverrideUsd]: the price of the selected plan when it is finite. *)
Definition planOverrideUsd (subscriptionPlans : list PlanRow.t) (subscriptionYears : number)
    : option number :=
  let v := match selectedPlan subscriptionPlans subscriptionYears with
           | Some p => PlanRow.price_usd p
           | None => NaN
           end in
  if isFinite v then Some v else None.

Section Checkout.

(** [computeDiscountedTotal({ monthlyPrice, months, discountPercent })] is
    imported from [@/lib/packageDurations]; the checkout is parametric in
    it. *)
Variable computeDiscountedTotal : number -> number -> number -> number.

(** Lines "Prefer Duration & Discount config" of [baseTotalUsd], without the
    add-ons. *)
Definition durationSubtotal (baseAnnual months discountPercent : number) : number :=
  let monthly := div baseAnnual (ofZ 12) in
  computeDiscountedTotal monthly months discountPercent.

(** The [useMemo] that computes [baseTotalUsd]. *)
Definition baseTotalUsd
    (subscriptionYears : option number)
    (discountByMonths : gmap number number)
    (pricing : Pricing)
    (subscriptionPlans : list PlanRow.t)
    (addOnsTotal : number) : option number :=
  match subscriptionYears with
  | None => None
  | Some y =>
      if negb (truthy y) then None
      else
        let months := mul y (ofZ 12) in
        let discountPercent := nullish (discountByMonths !! months) zero in
        if bool_decide (0 < size discountByMonths)%nat then
          match domainPriceUsd pricing, packagePriceUsd pricing with
          | Some domain, Some pkg =>
              Some (add (durationSubtotal (add domain pkg) months discountPercent)
                        addOnsTotal)
          | _, _ => None
          end
        else
          match planOverrideUsd subscriptionPlans y with
          | Some planUsd => Some (add planUsd addOnsTotal)
          | None =>
              match domainPriceUsd pricing, packagePriceUsd pricing with
              | Some domainUsd, Some pkgUsd =>
                  Some (add (mul (add domainUsd pkgUsd) y) addOnsTotal)
              | _, _ => None
              end
          end
  end.

End Checkout.

(** The guards of [baseTotalUsd], in the order the code evaluates them. *)
Definition pricingSource
    (subscriptionYears : option number)
    (discountByMonths : gmap number number)
    (subscriptionPlans : list PlanRow.t) : PricingSource :=
  match subscriptionYears with
  | None => NoDuration
  | Some y =>
      if negb (truthy y) then NoDuration
      else if bool_decide (0 < size discountByMonths)%nat then DurationDiscount
      else match planOverrideUsd subscriptionPlans y with
           | Some _ => LegacyPlan
           | None => RawBase
           end
  end.

(** The [useMemo] that computes [totalAfterPromoUsd]. *)
Definition totalAfterPromoUsd
    (baseTotalUsd : option number) (appliedPromo : option AppliedPromo.t)
    : option number :=
  match baseTotalUsd with
  | None => None
  | Some base =>
      let d := nullish (AppliedPromo.discountUsd <$> appliedPromo) zero in
      let discount := if isFinite d && gtb d zero then d else zero in
      Some (max zero (sub base discount))
  end.

(** The [useMemo] that computes [totalAfterPromoIdr]. *)
Definition totalAfterPromoIdr (totalAfterPromoUsd : option number) : option number :=
  match totalAfterPromoUsd with
  | None => None
  | Some t => Some (max zero (round t))
  end.

(** Modelled from the spec: [computeDiscountedTotal] of
    [@/lib/packageDurations] is not part of the sources.  Section 4.3 describes
    it as the monthly-discounted-total formula, a linear discount applied
    uniformly per month and summed over the months, and section 3 has the
    discount percent clamped into [0,100] before use. *)
Definition computeDiscountedTotal_spec
    (monthlyPrice months discountPercent : number) : number :=
  let discount := min (ofZ 100) (max zero discountPercent) in
  mul (mul monthlyPrice (sub (ofZ 1) (div discount (ofZ 100)))) months.

End Billing.

(* ===================================================================== *)
(** ** Specification-side definitions *)
(* ===================================================================== *)

(** The discount percent that enters the admin formula:
    [Math.min(100, Math.max(0, asNumber(v, 0)))]. *)
Definition clampDiscount (v : value) : number :=
  min (ofZ 100) (max zero (Admin.asNumber v zero)).

(** The total the admin screen shows for a duration bucket. *)
Definition adminTotalForDuration
    (draft : Admin.WebsitePlanPricingDraft) (years : number) : option number :=
  Admin.totalForDuration <$> Admin.durationView draft years.

(** The subtotal of the checkout's duration-discount branch for the same
    annual base, years and discount percent. *)
Definition checkoutDurationSubtotal (annualBase years discountPercent : number)
    : number :=
  Billing.durationSubtotal Billing.computeDiscountedTotal_spec
    annualBase (mul years (ofZ 12)) discountPercent.

(** The sum of a list of numbers, as a right fold. *)
Definition sumNumbers (l : list number) : number := foldr add zero l.

(** The add-ons of the catalog whose id maps to [true] in the selection. *)
Definition selectedItems
    (items : list SubscriptionAddOns.SubscriptionAddOn)
    (selected : gmap string bool)
    : list SubscriptionAddOns.SubscriptionAddOn :=
  filter (fun a => selected !! SubscriptionAddOns.id a = Some true) items.

(** [Number(a.price_idr ?? 0)] *)
Definition priceOf (a : SubscriptionAddOns.SubscriptionAddOn) : number :=
  nullish (SubscriptionAddOns.price_idr a) zero.

(** [Number(r.duration_months ?? 0)] and [Number(r.discount_percent ?? 0)] *)
Definition monthsOf (r : Billing.DurationRow) : number :=
  nullish (Billing.duration_months r) zero.

Definition percentOf (r : Billing.DurationRow) : number :=
  nullish (Billing.discount_percent r) zero.

(** The rows that the loop of [discountByMonths] writes into the map: those
    not marked inactive whose month count is finite and positive. *)
Definition entersMap (r : Billing.DurationRow) : bool :=
  negb (bool_decide (Billing.is_active r = Some false))
  && (isFinite (monthsOf r) && gtb (monthsOf r) zero).

(** What the duration-discount branch returns: it reads the map, the base
    prices and the add-ons total, and nothing else. *)
Definition durationPathTotal
    (computeDiscountedTotal : number -> number -> number -> number)
    (y : number) (m : gmap number number) (pricing : Billing.Pricing)
    (addOns : number) : option number :=
  match Billing.domainPriceUsd pricing, Billing.packagePriceUsd pricing with
  | Some domain, Some pkg =>
      Some (add (Billing.durationSubtotal computeDiscountedTotal (add domain pkg)
                   (mul y (ofZ 12)) (nullish (m !! mul y (ofZ 12)) zero))
                addOns)
  | _, _ => None
  end.

(** What the raw base-price branch returns. *)
Definition rawBaseTotal (y : number) (pricing : Billing.Pricing) (addOns : number)
    : option number :=
  match Billing.domainPriceUsd pricing, Billing.packagePriceUsd pricing with
  | Some domainUsd, Some pkgUsd => Some (add (mul (add domainUsd pkgUsd) y) addOns)
  | _, _ => None
  end.

(* ===================================================================== *)
(** ** Example data *)
(* ===================================================================== *)

Definition draftOf (mode : Admin.BaseMode) (price : number)
    (ds : gmap number Admin.WebsitePlanDurationDraft)
    : Admin.WebsitePlanPricingDraft :=
  {| Admin.key := Admin.blog_social; Admin.label := "Blog + Social Media";
     Admin.base_mode := mode; Admin.base_price := price;
     Admin.durations := ds |}.

Definition bucket (percent : Z) (manual : option number) (locked : bool)
    : Admin.WebsitePlanDurationDraft :=
  {| Admin.discount_percent := ofZ percent;
     Admin.manual_price_per_year := manual;
     Admin.is_manual_locked := locked |}.

(** Scenario A: 100,000 per month, 10 percent off for 2 years. *)
Definition scenarioA_draft : Admin.WebsitePlanPricingDraft :=
  draftOf Admin.monthly (ofZ 100000) {[ ofZ 2 := bucket 10 None false ]}.

Definition lockDemo (locked : bool) (manual : option number) : Admin.WebsitePlans :=
  fun _ => draftOf Admin.monthly (ofZ 100000) {[ ofZ 2 := bucket 10 manual locked ]}.

(** An annual base of 12 with 10 percent off for 3 years: 10.8 per year. *)
Definition roundingDraft : Admin.WebsitePlanPricingDraft :=
  draftOf Admin.yearly (ofZ 12) {[ ofZ 3 := bucket 10 None false ]}.

(** Scenario D: a promo worth 30. *)
Definition promo30 : AppliedPromo.t :=
  {| AppliedPromo.id := "p1"; AppliedPromo.code := "HEMAT30";
     AppliedPromo.promoName := "Hemat 30"; AppliedPromo.discountUsd := ofZ 30 |}.

Definition addOn (i : string) (price : option number)
    : SubscriptionAddOns.SubscriptionAddOn :=
  {| SubscriptionAddOns.id := i; SubscriptionAddOns.label := i;
     SubscriptionAddOns.description := None;
     SubscriptionAddOns.price_idr := price;
     SubscriptionAddOns.is_active := true;
     SubscriptionAddOns.sort_order := zero |}.

Definition addOnCatalog : list SubscriptionAddOns.SubscriptionAddOn :=
  [ addOn "seo" (Some (ofZ 150000));
    addOn "ads" (Some (ofZ 250000));
    addOn "mail" None ].

Definition inactiveRow : Billing.DurationRow :=
  {| Billing.is_active := Some false;
     Billing.duration_months := Some (ofZ 12);
     Billing.discount_percent := Some (ofZ 10) |}.

Definition activeRow (months percent : Z) : Billing.DurationRow :=
  {| Billing.is_active := Some true;
     Billing.duration_months := Some (ofZ months);
     Billing.discount_percent := Some (ofZ percent) |}.

Definition planRow (y : Z) (price : number) (active : bool) : PlanRow.t :=
  {| PlanRow.years := ofZ y; PlanRow.label := "Plan";
     PlanRow.price_usd := price; PlanRow.is_active := active;
     PlanRow.sort_order := ofZ y |}.

Definition pricing300 : Billing.Pricing :=
  {| Billing.domainPriceUsd := Some (ofZ 100);
     Billing.packagePriceUsd := Some (ofZ 200) |}.

Definition noPricing : Billing.Pricing :=
  {| Billing.domainPriceUsd := None; Billing.packagePriceUsd := None |}.

(* ===================================================================== *)
(** ** More of the admin screen ([SuperAdminSubscriptions]) *)
(* ===================================================================== *)

(** [a || b] on numbers and [a >= b]. *)
Definition orElse (a b : number) : number := if truthy a then a else b.

Definition geb (a b : number) : bool := ltb b a || strictEq a b.

(** [function safeNumber(v: unknown): number] *)
Definition safeNumber (v : value) : number :=
  let n := match v with VNum x => x | _ => Number v end in
  if isFinite n then n else zero.

(** A row of the stored [order_subscription_plans] value, as [fetchPlans]
    reads it: every field may be missing. *)
Module RawPlan.
Record t : Type := {
  years : value;
  label : option string;
  price_usd : value;
  is_active : option bool;
  sort_order : value;
}.
End RawPlan.

Module Plans.

(** [asNumber(p.years)], with the default fallback 0. *)
Definition yearsOf (p : PlanRow.t) : number :=
  Admin.asNumber (VNum (PlanRow.years p)) zero.

Definition sortOrderOf (p : PlanRow.t) : number :=
  Admin.asNumber (VNum (PlanRow.sort_order p)) zero.

(** The filter of [activeDurationYears]:
    [p.is_active !== false && asNumber(p.years) > 0]. *)
Definition isActivePlan (p : PlanRow.t) : bool :=
  PlanRow.is_active p && gtb (yearsOf p) zero.

(** The comparator of [activeDurationYears]:
    [asNumber(a.sort_order) - asNumber(b.sort_order)
       || asNumber(a.years) - asNumber(b.years)]. *)
Definition comparePlans (a b : PlanRow.t) : number :=
  orElse (sub (sortOrderOf a) (sortOrderOf b)) (sub (yearsOf a) (yearsOf b)).

(** [a] may stand before [b]: the comparator is not positive. *)
Definition planBefore (a b : PlanRow.t) : Prop :=
  gtb (comparePlans a b) zero = false.

#[global] Instance planBefore_dec : RelDecision planBefore.
Proof. intros a b. unfold planBefore. apply _. Defined.

(** The [useMemo] that computes [activeDurationYears].  [Array.prototype.sort]
    returns the rows in comparator order; rows that compare equal have the
    same years, so the list of years does not depend on how ties are
    placed. *)
Definition activeDurationYears (plans : list PlanRow.t) : list number :=
  yearsOf <$> merge_sort planBefore (filter (fun p => isActivePlan p = true) plans).

(** [Math.max(...l)] *)
Definition mathMax (l : list number) : number := fold_left max l NInf.

(** The updater of the "Add Plan" button. *)
Definition addPlan (prev : list PlanRow.t) : list PlanRow.t :=
  prev ++
  [ {| PlanRow.years := ofZ 1;
       PlanRow.label := "1 Year";
       PlanRow.price_usd := zero;
       PlanRow.is_active := true;
       PlanRow.sort_order :=
         if bool_decide (length prev = 0%nat) then ofZ 1
         else add (mathMax (PlanRow.sort_order <$> prev)) (ofZ 1) |} ].

Definition defaultPlans : list PlanRow.t :=
  [ {| PlanRow.years := ofZ 1; PlanRow.label := "1 Year"; PlanRow.price_usd := zero;
       PlanRow.is_active := true; PlanRow.sort_order := ofZ 1 |};
    {| PlanRow.years := ofZ 2; PlanRow.label := "2 Years"; PlanRow.price_usd := zero;
       PlanRow.is_active := true; PlanRow.sort_order := ofZ 2 |};
    {| PlanRow.years := ofZ 3; PlanRow.label := "3 Years"; PlanRow.price_usd := zero;
       PlanRow.is_active := true; PlanRow.sort_order := ofZ 3 |} ].

Section Labels.

(** [String.prototype.trim] and the conversion of a number to a string in a
    template literal are taken as given. *)
Variable trim : string -> string.
Variable numberToString : number -> string.

(** The template [`${years} Year${years > 1 ? "s" : ""}`]. *)
Definition defaultLabel (years : number) : string :=
  numberToString years +:+ " Year" +:+ (if gtb years (ofZ 1) then "s" else "").

(** The [.map(...)] of [fetchPlans] on one stored row. *)
Definition parsePlan (r : RawPlan.t) : PlanRow.t :=
  {| PlanRow.years := Admin.asNumber (RawPlan.years r) zero;
     PlanRow.label := trim (default "" (RawPlan.label r));
     PlanRow.price_usd := Admin.asNumber (RawPlan.price_usd r) zero;
     PlanRow.is_active := default true (RawPlan.is_active r);
     PlanRow.sort_order := Admin.asNumber (RawPlan.sort_order r) zero |}.

(** The second [.map(...)] of [fetchPlans]: default label and sort order. *)
Definition completePlan (p : PlanRow.t) : PlanRow.t :=
  {| PlanRow.years := PlanRow.years p;
     PlanRow.label :=
       if bool_decide (PlanRow.label p = "") then defaultLabel (PlanRow.years p)
       else PlanRow.label p;
     PlanRow.price_usd := PlanRow.price_usd p;
     PlanRow.is_active := PlanRow.is_active p;
     PlanRow.sort_order := orElse (PlanRow.sort_order p) (PlanRow.years p) |}.

(** The plans that [fetchPlans] passes to [setPlans]; [v] is [None] when the
    stored value is not an array. *)
Definition fetchPlans (v : option (list RawPlan.t)) : list PlanRow.t :=
  let parsed :=
    match v with
    | Some rows =>
        filter (fun p => gtb (PlanRow.years p) zero = true) (parsePlan <$> rows)
    | None => []
    end in
  if bool_decide (length parsed = 0%nat) then defaultPlans
  else completePlan <$> parsed.

(** The [.map(...)] of [savePlans] on one plan of the form. *)
Definition payloadPlan (p : PlanRow.t) : PlanRow.t :=
  {| PlanRow.years := yearsOf p;
     PlanRow.label :=
       if bool_decide (trim (PlanRow.label p) = "") then defaultLabel (yearsOf p)
       else trim (PlanRow.label p);
     PlanRow.price_usd := Admin.asNumber (VNum (PlanRow.price_usd p)) zero;
     PlanRow.is_active := PlanRow.is_active p;
     PlanRow.sort_order := Admin.asNumber (VNum (PlanRow.sort_order p)) (yearsOf p) |}.

(** The [payload] that [savePlans] upserts. *)
Definition savePlans (plans : list PlanRow.t) : list PlanRow.t :=
  filter (fun p => gtb (PlanRow.years p) zero = true) (payloadPlan <$> plans).

End Labels.


End Plans.

Module DraftSync.

(** The bucket that the effect creates for a duration without one. *)
Definition defaultBucket : Admin.WebsitePlanDurationDraft :=
  {| Admin.discount_percent := zero;
     Admin.manual_price_per_year := None;
     Admin.is_manual_locked := false |}.

(** [if (!durations[years]) durations[years] = {...}] *)
Definition ensureBucket
    (ds : gmap number Admin.WebsitePlanDurationDraft) (years : number)
    : gmap number Admin.WebsitePlanDurationDraft :=
  match ds !! years with
  | Some _ => ds
  | None => <[years := defaultBucket]> ds
  end.

(** The effect "Ensure selected package draft always has duration rows for
    current plans": the draft after it ran. *)
Definition ensureDurations
    (activeDurationYears : list number) (current : Admin.WebsitePlans)
    : Admin.WebsitePlans :=
  if bool_decide (length activeDurationYears = 0%nat) then current
  else fun k =>
         Admin.setDurations (current k)
           (fold_left ensureBucket activeDurationYears (Admin.durations (current k))).

End DraftSync.

(** A row of the add-ons form ([type SubscriptionAddOnRow]); [id] is absent
    on a row that was added in the form. *)
Module AddOnRow.
Record t : Type := {
  id : option string;
  label : string;
  description : string;
  price_idr : number;
  is_active : bool;
  sort_order : number;
}.
End AddOnRow.

(** A row that [saveAddOns] sends to the table. *)
Module AddOnPayload.
Record t : Type := {
  id : option string;
  label : string;
  description : option string;
  price_idr : number;
  is_active : bool;
  sort_order : number;
}.
End AddOnPayload.

Module AddOnsAdmin.

(** Truthiness of an optional string: present and not empty. *)
Definition truthyString (o : option string) : bool :=
  match o with
  | Some s => negb (bool_decide (s = ""))
  | None => false
  end.

Section Save.

Variable trim : string -> string.

(** The callback of [addOns.map((a, idx) => ...)] in [saveAddOns]. *)
Definition normalizeAddOn (idx : nat) (a : AddOnRow.t) : AddOnPayload.t :=
  {| AddOnPayload.id := if truthyString (AddOnRow.id a) then AddOnRow.id a else None;
     AddOnPayload.label := trim (AddOnRow.label a);
     AddOnPayload.description :=
       (let d := trim (AddOnRow.description a) in
        if bool_decide (d = "") then None else Some d);
     AddOnPayload.price_idr :=
       max zero (floor (safeNumber (VNum (AddOnRow.price_idr a))));
     AddOnPayload.is_active := AddOnRow.is_active a;
     AddOnPayload.sort_order := ofZ (Z.of_nat idx) |}.

(** The rows that [saveAddOns] inserts and the rows it upserts; [None] when
    the validation stops the save ("Label wajib diisi"). *)
Definition saveAddOns (addOns : list AddOnRow.t)
    : option (list AddOnPayload.t * list AddOnPayload.t) :=
  let normalized := imap normalizeAddOn addOns in
  match find (fun p => bool_decide (AddOnPayload.label p = "")) normalized with
  | Some _ => None
  | None =>
      let toUpsert :=
        filter (fun r => truthyString (AddOnPayload.id r) = true) normalized in
      let toInsert :=
        filter (fun r => truthyString (AddOnPayload.id r) = false) normalized in
      Some (toInsert, toUpsert)
  end.

End Save.

End AddOnsAdmin.

Module TldPriceRow.
Record t : Type := {
  tld : string;
  price_usd : number;
}.
End TldPriceRow.

(** A row of [tld_prices] as the pricing function returns it. *)
Module RawTldPrice.
Record t : Type := {
  tld : option string;
  price_usd : value;
}.
End RawTldPrice.

Module DomainPricing.

(** [.replace(/^\.+/, "")] *)
Fixpoint stripLeadingDots (s : string) : string :=
  match s with
  | String "."%char s' => stripLeadingDots s'
  | _ => s
  end.

(** [.replace(/\./g, "-")] *)
Fixpoint replaceDots (s : string) : string :=
  match s with
  | EmptyString => EmptyString
  | String c s' =>
      String (if bool_decide (c = "."%char) then "-"%char else c) (replaceDots s')
  end.

(** A [Map<string, number>] with its insertion order: [set] on a key that is
    present replaces the value in place, on a new key it appends. *)
Fixpoint mapSet (k : string) (v : number) (m : list (string * number))
    : list (string * number) :=
  match m with
  | [] => [(k, v)]
  | (k', v') :: m' =>
      if bool_decide (k = k') then (k, v) :: m' else (k', v') :: mapSet k v m'
  end.

Definition defaultTldRows : list TldPriceRow.t :=
  (fun tld => {| TldPriceRow.tld := tld; TldPriceRow.price_usd := zero |})
    <$> ["com"; "net"; "org"; "id"].

Section Normalize.

Variable trim : string -> string.
Variable toLowerCase : string -> string.

(** [function normalizeTld(input: unknown): string] *)
Definition normalizeTld (input : option string) : string :=
  replaceDots (stripLeadingDots (toLowerCase (trim (default "" input)))).

(** The rows that [fetchDomainPricing] passes to [setTldPrices];
    [priceRows] is [None] when [tld_prices] is not an array. *)
Definition fetchedTldPrices (priceRows : option (list RawTldPrice.t))
    : list TldPriceRow.t :=
  let normalized :=
    filter (fun r => TldPriceRow.tld r <> "")
      ((fun r => {| TldPriceRow.tld := normalizeTld (RawTldPrice.tld r);
                    TldPriceRow.price_usd := safeNumber (RawTldPrice.price_usd r) |})
         <$> default [] priceRows) in
  if bool_decide (length normalized = 0%nat) then defaultTldRows else normalized.

(** [cleaned] of [saveDomainPricing]. *)
Definition cleanedTldPrices (tldPrices : list TldPriceRow.t) : list TldPriceRow.t :=
  filter
    (fun r => TldPriceRow.tld r <> "" /\
              isFinite (TldPriceRow.price_usd r)
              && geb (TldPriceRow.price_usd r) zero = true)
    ((fun r => {| TldPriceRow.tld := normalizeTld (Some (TldPriceRow.tld r));
                  TldPriceRow.price_usd := safeNumber (VNum (TldPriceRow.price_usd r)) |})
       <$> tldPrices).

(** [dedupedMap] of [saveDomainPricing]. *)
Definition dedupedMap (tldPrices : list TldPriceRow.t) : list (string * number) :=
  fold_left
    (fun m row => mapSet (TldPriceRow.tld row) (TldPriceRow.price_usd row) m)
    (cleanedTldPrices tldPrices) [].

(** [deduped] of [saveDomainPricing]: the entries of the map, in order. *)
Definition dedupedTldPrices (tldPrices : list TldPriceRow.t) : list TldPriceRow.t :=
  (fun e => {| TldPriceRow.tld := e.1; TldPriceRow.price_usd := e.2 |})
    <$> dedupedMap tldPrices.

(** The package id that [saveDomainPricing] validates and the body it sends:
    [None] when the selected package is not valid any more.  [packages] are
    the ids of the package options. *)
Definition saveDomainPricing
    (pricingPackageId : string) (packages : list string)
    (tldPrices : list TldPriceRow.t)
    : option (string * list TldPriceRow.t) :=
  let pkgId :=
    if bool_decide (trim pricingPackageId = "")
    then trim (default "" (head packages))
    else trim pricingPackageId in
  if negb (bool_decide (pkgId = "")) && bool_decide (pkgId ∈ packages)
  then Some (pkgId, dedupedTldPrices tldPrices)
  else None.

End Normalize.

End DomainPricing.

(* ===================================================================== *)
(** ** Domain search ([ChooseDomain]) *)
(* ===================================================================== *)

Module DomainItem.
Record t : Type := {
  domain : string;
  status : string;
  price_usd : option number;
}.
End DomainItem.

Module ChooseDomain.



(** [v.includes(".")] *)
Fixpoint includesDot (s : string) : bool :=
  match s with
  | EmptyString => false
  | String c s' => bool_decide (c = "."%char) || includesDot s'
  end.


Section Keyword.

Variable trim : string -> string.
Variable toLowerCase : string -> string.
(** [.replace(/\s+/g, "")] *)
Variable removeWhitespace : string -> string.


End Keyword.

(** [items.filter((it) => it.domain).slice(0, 10)] *)
Definition visibleItems (items : list DomainItem.t) : list DomainItem.t :=
  take 10 (filter (fun it => DomainItem.domain it <> "") items).

End ChooseDomain.

(* ===================================================================== *)
(** ** Promo revalidation ([Billing]) *)
(* ===================================================================== *)

(** The answer of [validatePromoCode]. *)
Inductive PromoAnswer : Type :=
  | PromoRejected
  | PromoAccepted (promo_id promo_code promo_name : string) (discountUsd : number).

Section PromoRevalidation.

Variable trim : string -> string.
Variable validatePromoCode : string -> number -> PromoAnswer.

(** The applied promo that one run of the revalidation (the debounced effect
    or the "apply" action) leaves in the order state. *)
Definition revalidatedPromo (promo : string) (baseTotalUsd : option number)
    : option AppliedPromo.t :=
  let code := trim promo in
  if bool_decide (code = "") then None
  else match baseTotalUsd with
       | None => None
       | Some base =>
           match validatePromoCode code base with
           | PromoRejected => None
           | PromoAccepted i c n d =>
               Some {| AppliedPromo.id := i; AppliedPromo.code := c;
                       AppliedPromo.promoName := n; AppliedPromo.discountUsd := d |}
           end
       end.

End PromoRevalidation.

(* ===================================================================== *)
(** ** Midtrans settings form ([useMidtransIntegration]) *)
(* ===================================================================== *)

Module Midtrans.

Inductive MidtransEnv : Type := sandbox | production.

#[global] Instance MidtransEnv_eq_dec : EqDecision MidtransEnv.
Proof. solve_decision. Defined.

Record MidtransFormValue : Type := {
  merchantId : string;
  sandboxClientKey : string;
  sandboxServerKey : string;
  productionClientKey : string;
  productionServerKey : string
}.

(** The body of the [set] action sent to the settings function. *)
Record SetRequest : Type := {
  env : MidtransEnv;
  merchant_id : string;
  client_key : string;
  server_key : string
}.

(** The character class [[A-Za-z0-9_-]]. *)
Definition merchantIdChar (c : ascii) : bool :=
  let n := nat_of_ascii c in
  ((65 <=? n) && (n <=? 90)) || ((97 <=? n) && (n <=? 122))
  || ((48 <=? n) && (n <=? 57)) || (n =? 95) || (n =? 45).

(** [/^[A-Za-z0-9_-]{3,64}$/.test(merchantId)] *)
Definition merchantIdPattern (s : string) : bool :=
  forallb merchantIdChar (String.list_ascii_of_string s)
  && (3 <=? String.length s) && (String.length s <=? 64).

Definition clientKeyField (e : MidtransEnv) (value : MidtransFormValue) : string :=
  match e with
  | sandbox => sandboxClientKey value
  | production => productionClientKey value
  end.

Definition serverKeyField (e : MidtransEnv) (value : MidtransFormValue) : string :=
  match e with
  | sandbox => sandboxServerKey value
  | production => productionServerKey value
  end.

Section Save.

Variable trim : string -> string.
(** [/\s/.test] *)
Variable hasWhitespace : string -> bool.

(** The checks of [onSave], up to the request: the message of the error
    thrown, or the request sent. *)
Definition onSave (e : MidtransEnv) (value : MidtransFormValue)
    : string + SetRequest :=
  let merchantId := trim (merchantId value) in
  if bool_decide (merchantId = "") then inl "Merchant ID wajib diisi."
  else if negb (merchantIdPattern merchantId) then inl "Format Merchant ID tidak valid."
  else
    let clientKey := trim (clientKeyField e value) in
    let serverKey := trim (serverKeyField e value) in
    if bool_decide (clientKey = "") then inl "Client Key wajib diisi."
    else if bool_decide (serverKey = "") then inl "Server Key wajib diisi."
    else if hasWhitespace clientKey || (String.length clientKey <? 8)
    then inl "Client Key tidak valid."
    else if hasWhitespace serverKey || (String.length serverKey <? 8)
    then inl "Server Key tidak valid."
    else inr {| env := e; merchant_id := merchantId;
                client_key := clientKey; server_key := serverKey |}.

End Save.

(** The [onChange] patch applied after the request succeeded. *)
Definition clearedKeys (e : MidtransEnv) (value : MidtransFormValue)
    : MidtransFormValue :=
  match e with
  | sandbox =>
      {| merchantId := merchantId value;
         sandboxClientKey := ""; sandboxServerKey := "";
         productionClientKey := productionClientKey value;
         productionServerKey := productionServerKey value |}
  | production =>
      {| merchantId := merchantId value;
         sandboxClientKey := sandboxClientKey value;
         sandboxServerKey := sandboxServerKey value;
         productionClientKey := ""; productionServerKey := "" |}
  end.

End Midtrans.

(* ===================================================================== *)
(** ** Predicates and sample data of the statements *)
(* ===================================================================== *)

(** The bucket that the lock switch writes for duration [y] of plan [k]
    when it is set to [v] and the bucket before the click is [cur]. *)
Definition switchedBucket
    (prev : Admin.WebsitePlans) (k : Admin.WebsitePlanKey) (y : number) (v : bool)
    (cur : Admin.WebsitePlanDurationDraft) : Admin.WebsitePlanDurationDraft :=
  {| Admin.discount_percent := Admin.discount_percent cur;
     Admin.manual_price_per_year :=
       if v
       then Some (Admin.asNumber
                    (VNum (nullish (Admin.manual_price_per_year cur)
                                   (Admin.computeAutoPricePerYear (prev k) y)))
                    zero)
       else None;
     Admin.is_manual_locked := v |}.

(** What every plan of the form and of the payload satisfies. *)
Definition wellFormedPlan (p : PlanRow.t) : Prop :=
  (exists q : Qc, PlanRow.years p = Fin q /\ (0 < q)%Qc) /\
  isFinite (PlanRow.price_usd p) = true /\
  isFinite (PlanRow.sort_order p) = true /\
  PlanRow.label p <> "".

(** The fold that fills the TLD map, from any map. *)
Definition setAll (rows : list TldPriceRow.t) (m : list (string * number))
    : list (string * number) :=
  fold_left
    (fun m row =>
       DomainPricing.mapSet (TldPriceRow.tld row) (TldPriceRow.price_usd row) m)
    rows m.

(** What every TLD row that is sent satisfies. *)
Definition cleanRow (tld : string) (price : number) : Prop :=
  tld <> "" /\ ChooseDomain.includesDot tld = false /\
  exists q : Qc, price = Fin q /\ (0 <= q)%Qc.

(** A promo whose discount is not a number. *)
Definition promoNaN : AppliedPromo.t :=
  {| AppliedPromo.id := "p2"; AppliedPromo.code := "RUSAK";
     AppliedPromo.promoName := "Rusak"; AppliedPromo.discountUsd := NaN |}.

(** An add-ons form: one stored row, one new row with a negative price. *)
Definition addOnForm : list AddOnRow.t :=
  [ {| AddOnRow.id := Some "a1"; AddOnRow.label := "SEO";
       AddOnRow.description := ""; AddOnRow.price_idr := Fin (Q2Qc (3001 # 2));
       AddOnRow.is_active := true; AddOnRow.sort_order := ofZ 7 |};
    {| AddOnRow.id := None; AddOnRow.label := "Ads";
       AddOnRow.description := "x"; AddOnRow.price_idr := ofZ (-5);
       AddOnRow.is_active := true; AddOnRow.sort_order := ofZ 7 |} ].

(** A filled Midtrans form. *)
Definition midtransForm : Midtrans.MidtransFormValue :=
  {| Midtrans.merchantId := "G112191473";
     Midtrans.sandboxClientKey := "Mid-client-abc";
     Midtrans.sandboxServerKey := "Mid-server-abc";
     Midtrans.productionClientKey := "Mid-client-xyz";
     Midtrans.productionServerKey := "short" |}.

(** A TLD form with a repeated TLD and a negative price. *)
Definition tldForm : list TldPriceRow.t :=
  [ {| TldPriceRow.tld := "com"; TldPriceRow.price_usd := ofZ 150000 |};
    {| TldPriceRow.tld := ".co.id"; TldPriceRow.price_usd := ofZ 300000 |};
    {| TldPriceRow.tld := "com"; TldPriceRow.price_usd := ofZ 175000 |};
    {| TldPriceRow.tld := "net"; TldPriceRow.price_usd := ofZ (-1) |} ].

(* ===================================================================== *)
(** * Proofs *)
(* ===================================================================== *)

(** Closed goals over concrete numbers are settled by evaluating their
    decision procedure. *)
Ltac js_decide := apply (bool_decide_unpack _); vm_compute; exact I.

(* ===================================================================== *)
(** ** Facts about numbers *)
(* ===================================================================== *)

Module JsFacts.

Lemma Fin_inj (a b : Qc) : Fin a = Fin b -> a = b.
Proof.
  intros H. exact (f_equal (fun n => match n with Fin q => q | _ => 0%Qc end) H).
Qed.

Lemma ltb_ofZ (a b : Z) : ltb (ofZ a) (ofZ b) = bool_decide (a < b)%Z.
Proof. unfold ltb, ofZ. apply bool_decide_ext. symmetry. apply Z2Qc_inj_lt. Qed.

Lemma max_zero_ofZ (z : Z) : max zero (ofZ z) = ofZ (Z.max 0 z).
Proof.
  unfold max, zero. change (ofZ z) with (Fin (Qc_of_Z z)) at 1.
  cbv iota beta. fold (ofZ z). rewrite ltb_ofZ.
  case_bool_decide; f_equal; lia.
Qed.

Lemma Qcfloor_nonneg (q : Qc) : (0 <= q)%Qc -> (0 <= Qfloor q)%Z.
Proof.
  intros H. change 0%Z with (Qfloor 0). by apply Qfloor_resp_le.
Qed.

Lemma Qcfloor_neg (q : Qc) : (q < 0)%Qc -> (Qfloor q < 0)%Z.
Proof.
  intros H. rewrite Zlt_Qlt.
  eapply Qle_lt_trans; [apply Qfloor_le | exact H].
Qed.

Lemma Qfloor_unique (x : Q) (z : Z) :
  (inject_Z z <= x)%Q -> (x < inject_Z (z + 1))%Q -> Qfloor x = z.
Proof.
  intros Hlo Hhi.
  pose proof (Qfloor_le x) as Hf1. pose proof (Qlt_floor x) as Hf2.
  assert (Qfloor x < z + 1)%Z
    by (rewrite Zlt_Qlt; eapply Qle_lt_trans; [exact Hf1 | exact Hhi]).
  assert (z < Qfloor x + 1)%Z
    by (rewrite Zlt_Qlt; eapply Qle_lt_trans; [exact Hlo | exact Hf2]).
  lia.
Qed.

Lemma round_ofZ (z : Z) : round (ofZ z) = ofZ z.
Proof.
  unfold round, ofZ. do 2 f_equal. apply Qfloor_unique.
  - simpl. rewrite Qred_correct. rewrite <- (Qplus_0_r (inject_Z z)) at 1.
    apply Qplus_le_r. done.
  - simpl. rewrite Qred_correct, inject_Z_plus.
    apply Qplus_lt_r. done.
Qed.

Lemma isFinite_Fin (n : number) : isFinite n = true <-> exists q, n = Fin q.
Proof. destruct n; simpl; split; try done; [eauto | intros [q' ?]; done..]. Qed.

End JsFacts.

(* ===================================================================== *)
(** ** Annualization *)
(* ===================================================================== *)

Section Annualization.

Import Admin JsFacts.

Lemma asNumber_finite (q : Qc) (fallback : number) :
  asNumber (VNum (Fin q)) fallback = Fin q.
Proof. reflexivity. Qed.

Lemma asNumber_not_finite (n fallback : number) :
  isFinite n = false -> asNumber (VNum n) fallback = fallback.
Proof. unfold asNumber. by intros ->. Qed.

Lemma asNumber_isFinite (v : value) (fallback : number) :
  isFinite fallback = true -> isFinite (asNumber v fallback) = true.
Proof.
  intros Hf. unfold asNumber.
  set (n := match v with VNum x => x | _ => Number v end).
  destruct (isFinite n) eqn:E; [exact E | exact Hf].
Qed.

(** The clamped, floored base price is a non-negative integer. *)
Lemma flooredBase_ofZ (b : number) :
  exists z, (0 <= z)%Z /\ max zero (floor (asNumber (VNum b) zero)) = ofZ z.
Proof.
  destruct b as [q| | |].
  - exists (Z.max 0 (Qfloor q)). split; [lia|].
    rewrite asNumber_finite. simpl. apply max_zero_ofZ.
  - exists 0%Z. split; [lia | js_decide].
  - exists 0%Z. split; [lia | js_decide].
  - exists 0%Z. split; [lia | js_decide].
Qed.

Lemma mul_ofZ (a b : Z) : mul (ofZ a) (ofZ b) = ofZ (a * b).
Proof. unfold mul, ofZ. by rewrite Z2Qc_inj_mul. Qed.

Lemma computeAnnualBase_ofZ (draft : WebsitePlanPricingDraft) :
  exists z, (0 <= z)%Z /\ computeAnnualBase draft = ofZ z.
Proof.
  unfold computeAnnualBase.
  destruct (flooredBase_ofZ (base_price draft)) as (z & Hz & ->).
  destruct (base_mode draft).
  - exists (z * 12)%Z. split; [lia | apply mul_ofZ].
  - by exists z.
Qed.

End Annualization.

(** C6.  For a finite base price [q >= 0] the annual base is
    [floor(q) * 12] in monthly mode and [floor(q)] in yearly mode; a negative
    base price and a non-numeric one ([NaN], and likewise an infinity) give
    an annual base of 0. *)
Theorem computeAnnualBase_annualizes (draft : Admin.WebsitePlanPricingDraft) :
  (forall q : Qc,
      Admin.base_price draft = Fin q -> (0 <= q)%Qc ->
      Admin.computeAnnualBase draft =
        match Admin.base_mode draft with
        | Admin.monthly => mul (floor (Fin q)) (ofZ 12)
        | Admin.yearly => floor (Fin q)
        end) /\
  (forall q : Qc,
      Admin.base_price draft = Fin q -> (q < 0)%Qc ->
      Admin.computeAnnualBase draft = zero) /\
  (isFinite (Admin.base_price draft) = false ->
      Admin.computeAnnualBase draft = zero).
Proof.
  unfold Admin.computeAnnualBase. split; [|split].
  - intros q -> Hq. rewrite asNumber_finite. simpl floor.
    rewrite JsFacts.max_zero_ofZ.
    rewrite Z.max_r by (by apply JsFacts.Qcfloor_nonneg).
    done.
  - intros q -> Hq. rewrite asNumber_finite. simpl floor.
    rewrite JsFacts.max_zero_ofZ.
    rewrite Z.max_l by (apply JsFacts.Qcfloor_neg in Hq; lia).
    destruct (Admin.base_mode draft); [js_decide | done].
  - intros Hnf. rewrite asNumber_not_finite by done.
    destruct (Admin.base_mode draft); js_decide.
Qed.

Lemma computeAnnualBase_annualizes_witness :
  ((0 <= Q2Qc (6003 # 4))%Qc /\
   Admin.computeAnnualBase (draftOf Admin.monthly (Fin (Q2Qc (6003 # 4))) ∅)
     = mul (floor (Fin (Q2Qc (6003 # 4)))) (ofZ 12)) /\
  ((Q2Qc (-3 # 1) < 0)%Qc /\
   Admin.computeAnnualBase (draftOf Admin.yearly (Fin (Q2Qc (-3 # 1))) ∅) = zero) /\
  Admin.computeAnnualBase (draftOf Admin.yearly NaN ∅) = zero.
Proof.
  split; [|split].
  - split; [js_decide|].
    apply (proj1 (computeAnnualBase_annualizes
                    (draftOf Admin.monthly (Fin (Q2Qc (6003 # 4))) ∅))
                 (Q2Qc (6003 # 4)) eq_refl).
    js_decide.
  - split; [js_decide|].
    apply (proj1 (proj2 (computeAnnualBase_annualizes
                           (draftOf Admin.yearly (Fin (Q2Qc (-3 # 1))) ∅)))
                 (Q2Qc (-3 # 1)) eq_refl).
    js_decide.
  - apply (proj2 (proj2 (computeAnnualBase_annualizes (draftOf Admin.yearly NaN ∅)))).
    reflexivity.
Defined.

(* ===================================================================== *)
(** ** Discount resolver and manual lock *)
(* ===================================================================== *)

Section DiscountResolver.

Import Admin JsFacts.

Lemma clampDiscount_range (v : value) :
  exists d : Qc, clampDiscount v = Fin d /\ (0 <= d)%Qc /\ (d <= Qc_of_Z 100)%Qc.
Proof.
  unfold clampDiscount.
  assert (Hfin : isFinite (asNumber v zero) = true) by by apply asNumber_isFinite.
  apply isFinite_Fin in Hfin as [q ->].
  assert (H100 : (0 <= Qc_of_Z 100)%Qc) by js_decide.
  unfold max, zero, ofZ, ltb. rewrite Z2Qc_inj_0.
  case_bool_decide as H0; unfold min, ltb.
  - case_bool_decide as H1.
    + exists q. split; [done | split; by apply Qclt_le_weak].
    + exists (Qc_of_Z 100). split; [done | split; [done | apply Qcle_refl]].
  - case_bool_decide as H1.
    + exists 0%Qc. split; [done | split; [apply Qcle_refl | done]].
    + exists (Qc_of_Z 100). split; [done | split; [done | apply Qcle_refl]].
Qed.

Lemma div_100 (d : Qc) : div (Fin d) (ofZ 100) = Fin (d / Qc_of_Z 100)%Qc.
Proof. reflexivity. Qed.

Lemma round_Fin (q : Qc) : round (Fin q) = ofZ (Qfloor (q + Q2Qc (1 # 2))%Qc).
Proof. reflexivity. Qed.

(** The auto price per year is an integer, hence finite. *)
Lemma computeAutoPricePerYear_ofZ (draft : WebsitePlanPricingDraft) (years : number) :
  exists z, computeAutoPricePerYear draft years = ofZ z.
Proof.
  unfold computeAutoPricePerYear.
  destruct (computeAnnualBase_ofZ draft) as (a & _ & ->).
  fold (clampDiscount (discountOf draft years)).
  destruct (clampDiscount_range (discountOf draft years)) as (d & -> & _).
  rewrite div_100. simpl. eauto.
Qed.

Lemma asNumber_ofZ (z : Z) (fallback : number) :
  asNumber (VNum (ofZ z)) fallback = ofZ z.
Proof. reflexivity. Qed.

End DiscountResolver.

(** C8.  Scenario A: with an annual base of 1,200,000, a discount of 10
    percent and a duration of 2 years, the auto price per year is 1,080,000;
    when the bucket is not locked, or locked with no manual price, the total
    for the duration is 2,160,000. *)
Theorem scenario_A_discount_resolver
    (draft : Admin.WebsitePlanPricingDraft) (d : Admin.WebsitePlanDurationDraft) :
  Admin.computeAnnualBase draft = ofZ 1200000 ->
  Admin.durations draft !! ofZ 2 = Some d ->
  Admin.discount_percent d = ofZ 10 ->
  Admin.is_manual_locked d = false \/ Admin.manual_price_per_year d = None ->
  Admin.computeAutoPricePerYear draft (ofZ 2) = ofZ 1080000 /\
  Admin.durationView draft (ofZ 2) =
    Some {| Admin.autoPricePerYear := ofZ 1080000;
            Admin.shownPricePerYear := ofZ 1080000;
            Admin.totalForDuration := ofZ 2160000 |}.
Proof.
  intros Hbase Hd Hdisc Hlock.
  assert (Hauto : Admin.computeAutoPricePerYear draft (ofZ 2) = ofZ 1080000).
  { unfold Admin.computeAutoPricePerYear, Admin.discountOf.
    rewrite Hbase, Hd, Hdisc. js_decide. }
  split; [exact Hauto|].
  unfold Admin.durationView. rewrite Hd, Hauto.
  assert (Hshown :
    (if Admin.is_manual_locked d
     then Admin.asNumber
            (VNum (nullish (Admin.manual_price_per_year d) (ofZ 1080000)))
            (ofZ 1080000)
     else ofZ 1080000) = ofZ 1080000).
  { destruct Hlock as [-> | ->]; [done|]. by destruct (Admin.is_manual_locked d). }
  rewrite Hshown. do 2 f_equal.
Qed.

Lemma scenario_A_discount_resolver_witness :
  Admin.computeAnnualBase scenarioA_draft = ofZ 1200000 /\
  Admin.computeAutoPricePerYear scenarioA_draft (ofZ 2) = ofZ 1080000 /\
  Admin.totalForDuration <$> Admin.durationView scenarioA_draft (ofZ 2)
    = Some (ofZ 2160000).
Proof.
  assert (Hbase : Admin.computeAnnualBase scenarioA_draft = ofZ 1200000)
    by js_decide.
  destruct (scenario_A_discount_resolver scenarioA_draft
              (bucket 10 None false)
              Hbase eq_refl eq_refl (or_introl eq_refl)) as [Hauto Hview].
  split; [exact Hbase | split; [exact Hauto|]].
  by rewrite Hview.
Defined.

(** C7.  For a duration bucket that exists in the draft: switching the manual
    lock on while the manual price is unset stores the auto price per year of
    that moment as the manual price; switching it off stores [null]; and while
    the bucket is locked the shown price per year is the (finite) manual price,
    or the auto price when the manual price is [null]. *)
Theorem manual_lock_snapshot
    (prev : Admin.WebsitePlans) (k : Admin.WebsitePlanKey) (years : number)
    (cur : Admin.WebsitePlanDurationDraft) :
  Admin.durations (prev k) !! years = Some cur ->
  (Admin.manual_price_per_year cur = None ->
   exists next,
     Admin.onCheckedChange k years true prev = Some next /\
     Admin.durations (next k) !! years =
       Some {| Admin.discount_percent := Admin.discount_percent cur;
               Admin.manual_price_per_year :=
                 Some (Admin.computeAutoPricePerYear (prev k) years);
               Admin.is_manual_locked := true |}) /\
  (exists next,
     Admin.onCheckedChange k years false prev = Some next /\
     Admin.durations (next k) !! years =
       Some {| Admin.discount_percent := Admin.discount_percent cur;
               Admin.manual_price_per_year := None;
               Admin.is_manual_locked := false |}) /\
  (Admin.is_manual_locked cur = true ->
   exists view,
     Admin.durationView (prev k) years = Some view /\
     (forall m, Admin.manual_price_per_year cur = Some m -> isFinite m = true ->
                Admin.shownPricePerYear view = m) /\
     (Admin.manual_price_per_year cur = None ->
      Admin.shownPricePerYear view = Admin.computeAutoPricePerYear (prev k) years)).
Proof.
  intros Hcur. split; [|split].
  - intros Hnone. unfold Admin.onCheckedChange. rewrite Hcur, Hnone.
    eexists. split; [reflexivity|].
    rewrite fn_lookup_insert. simpl. rewrite lookup_insert_eq.
    destruct (computeAutoPricePerYear_ofZ (prev k) years) as [z ->].
    by rewrite asNumber_ofZ.
  - unfold Admin.onCheckedChange. rewrite Hcur.
    eexists. split; [reflexivity|].
    rewrite fn_lookup_insert. simpl. by rewrite lookup_insert_eq.
  - intros Hlocked. unfold Admin.durationView. rewrite Hcur, Hlocked.
    eexists. split; [reflexivity|]. simpl. split.
    + intros m -> Hfin. simpl. unfold Admin.asNumber. by rewrite Hfin.
    + intros ->. simpl.
      destruct (computeAutoPricePerYear_ofZ (prev k) years) as [z ->].
      by rewrite asNumber_ofZ.
Qed.

Lemma manual_lock_snapshot_witness :
  (exists next,
     Admin.onCheckedChange Admin.blog_social (ofZ 2) true (lockDemo false None)
       = Some next /\
     Admin.manual_price_per_year <$>
       Admin.durations (next Admin.blog_social) !! ofZ 2
       = Some (Some (ofZ 1080000))) /\
  (exists view,
     Admin.durationView (lockDemo true (Some (ofZ 999000)) Admin.blog_social) (ofZ 2)
       = Some view /\
     Admin.shownPricePerYear view = ofZ 999000).
Proof.
  split.
  - destruct (proj1 (manual_lock_snapshot (lockDemo false None) Admin.blog_social
                       (ofZ 2)
                       (bucket 10 None false)
                       eq_refl) eq_refl) as (next & Hnext & Hdur).
    exists next. split; [exact Hnext|].
    rewrite Hdur. simpl. do 2 f_equal.
  - destruct (proj2 (proj2 (manual_lock_snapshot
                       (lockDemo true (Some (ofZ 999000))) Admin.blog_social
                       (ofZ 2)
                       (bucket 10 (Some (ofZ 999000)) true)
                       eq_refl)) eq_refl) as (view & Hview & Hm & _).
    exists view. split; [exact Hview|].
    exact (Hm (ofZ 999000) eq_refl eq_refl).
Defined.

(* ===================================================================== *)
(** ** Promo clamp *)
(* ===================================================================== *)

Section Promo.

Import JsFacts.

Lemma gtb_zero (d : Qc) : gtb (Fin d) zero = bool_decide (0 < d)%Qc.
Proof. unfold gtb, ltb, zero, ofZ. by rewrite Z2Qc_inj_0. Qed.

Lemma max_zero_neg (x : Qc) : (x <= 0)%Qc -> max zero (Fin x) = zero.
Proof.
  intros Hx. unfold max, zero, ofZ, ltb. rewrite Z2Qc_inj_0.
  rewrite bool_decide_eq_false_2; [done|]. by apply Qcle_not_lt.
Qed.

Lemma max_zero_nonneg (x : Qc) :
  exists t : Qc, max zero (Fin x) = Fin t /\ (0 <= t)%Qc.
Proof.
  unfold max, zero, ofZ, ltb. rewrite Z2Qc_inj_0.
  case_bool_decide as H.
  - exists x. split; [done | by apply Qclt_le_weak].
  - exists 0%Qc. split; [done | apply Qcle_refl].
Qed.

Lemma round_nonneg (t : Qc) :
  (0 <= t)%Qc -> (0 <= Qfloor (t + Q2Qc (1 # 2))%Qc)%Z.
Proof.
  intros Ht. apply Qcfloor_nonneg.
  replace 0%Qc with (0 + 0)%Qc by ring.
  apply Qcplus_le_compat; [done | js_decide].
Qed.

Lemma max_zero_round (t : Qc) :
  (0 <= t)%Qc -> max zero (round (Fin t)) = round (Fin t).
Proof.
  intros Ht. rewrite round_Fin, max_zero_ofZ.
  by rewrite Z.max_r by (by apply round_nonneg).
Qed.

End Promo.

(** C5.  For a subtotal [s] and an applied discount amount [d >= 0] (no
    applied promo counts as 0), the total after promo is
    [max(0, s - d)], and the invoiced amount is that value rounded to an
    integer (the same value when [s] and [d] are whole amounts).  When
    [d > s] both are 0, and neither is ever negative. *)
Theorem promo_clamp (appliedPromo : option AppliedPromo.t) (s d : Qc) :
  nullish (AppliedPromo.discountUsd <$> appliedPromo) zero = Fin d ->
  (0 <= d)%Qc ->
  let usd := Billing.totalAfterPromoUsd (Some (Fin s)) appliedPromo in
  let idr := Billing.totalAfterPromoIdr usd in
  usd = Some (max zero (sub (Fin s) (Fin d))) /\
  idr = Some (round (max zero (sub (Fin s) (Fin d)))) /\
  (forall zs zd : Z, s = Qc_of_Z zs -> d = Qc_of_Z zd ->
                     idr = Some (max zero (sub (Fin s) (Fin d)))) /\
  ((s < d)%Qc -> usd = Some zero /\ idr = Some zero) /\
  (exists t i : Qc,
      usd = Some (Fin t) /\ (0 <= t)%Qc /\ idr = Some (Fin i) /\ (0 <= i)%Qc).
Proof.
  intros Hd Hpos usd idr.
  assert (Husd : usd = Some (max zero (sub (Fin s) (Fin d)))).
  { subst usd. unfold Billing.totalAfterPromoUsd. rewrite Hd.
    simpl isFinite. rewrite gtb_zero.
    case_bool_decide as H0; simpl andb; cbv iota; [done|].
    assert (d = 0%Qc) as ->
      by (apply Qcle_antisym; [by apply Qcnot_lt_le | done]).
    by rewrite <- Z2Qc_inj_0. }
  destruct (max_zero_nonneg (s + - d)%Qc) as (t & Ht & Htpos).
  change (Fin (s + - d)%Qc) with (sub (Fin s) (Fin d)) in Ht.
  assert (Hidr : idr = Some (round (max zero (sub (Fin s) (Fin d))))).
  { subst idr. rewrite Husd. unfold Billing.totalAfterPromoIdr.
    rewrite Ht. by rewrite max_zero_round. }
  split; [exact Husd | split; [exact Hidr | split; [|split]]].
  - intros zs zd -> ->. rewrite Hidr. f_equal.
    change (sub (Fin (Qc_of_Z zs)) (Fin (Qc_of_Z zd)))
      with (Fin (Qc_of_Z zs + - Qc_of_Z zd)%Qc).
    replace (Qc_of_Z zs + - Qc_of_Z zd)%Qc with (Qc_of_Z (zs - zd)).
    + fold (ofZ (zs - zd)). rewrite JsFacts.max_zero_ofZ.
      apply JsFacts.round_ofZ.
    + rewrite Z2Qc_inj_sub. ring.
  - intros Hlt.
    assert (Hz : max zero (sub (Fin s) (Fin d)) = zero).
    { apply max_zero_neg. apply Qclt_le_weak.
      apply (proj2 (Qclt_minus_iff (s + - d) 0)).
      replace (0 + - (s + - d))%Qc with (d + - s)%Qc by ring.
      by apply (proj1 (Qclt_minus_iff s d)). }
    rewrite Hidr, Husd, Hz. split; [done | f_equal; js_decide].
  - rewrite Hidr, Husd, Ht, round_Fin.
    exists t, (Qc_of_Z (Qfloor (t + Q2Qc (1 # 2))%Qc)).
    split; [done | split; [done | split; [done|]]].
    rewrite <- Z2Qc_inj_0. apply (proj1 (Z2Qc_inj_le 0 _)). by apply round_nonneg.
Qed.

Lemma promo_clamp_witness :
  (0 <= Qc_of_Z 30)%Qc /\
  Billing.totalAfterPromoIdr
    (Billing.totalAfterPromoUsd (Some (ofZ 100)) (Some promo30)) = Some (ofZ 70) /\
  (Qc_of_Z 10 < Qc_of_Z 30)%Qc /\
  Billing.totalAfterPromoUsd (Some (ofZ 10)) (Some promo30) = Some zero /\
  Billing.totalAfterPromoIdr
    (Billing.totalAfterPromoUsd (Some (ofZ 10)) (Some promo30)) = Some zero.
Proof.
  assert (Hpos : (0 <= Qc_of_Z 30)%Qc) by js_decide.
  assert (Hlt : (Qc_of_Z 10 < Qc_of_Z 30)%Qc) by js_decide.
  destruct (promo_clamp (Some promo30) (Qc_of_Z 100) (Qc_of_Z 30) eq_refl Hpos)
    as (_ & _ & Hint & _).
  destruct (promo_clamp (Some promo30) (Qc_of_Z 10) (Qc_of_Z 30) eq_refl Hpos)
    as (_ & _ & _ & Hclamp & _).
  destruct (Hclamp Hlt) as [Husd Hidr].
  split; [exact Hpos | split; [| split; [exact Hlt | split; [exact Husd | exact Hidr]]]].
  change (ofZ 100) with (Fin (Qc_of_Z 100)).
  rewrite (Hint 100%Z 30%Z eq_refl eq_refl). f_equal. js_decide.
Defined.

(* ===================================================================== *)
(** ** Add-on aggregation *)
(* ===================================================================== *)

Section AddOns.

Import SubscriptionAddOns.

Lemma add_assoc (a b c : number) : add a (add b c) = add (add a b) c.
Proof. destruct a, b, c; simpl; try done. f_equal. ring. Qed.

Lemma add_zero_r (a : number) : add a zero = a.
Proof.
  destruct a; try done. unfold zero, ofZ. simpl. rewrite Z2Qc_inj_0. f_equal. ring.
Qed.

Lemma add_zero_l (a : number) : add zero a = a.
Proof.
  destruct a; try done. unfold zero, ofZ. simpl. rewrite Z2Qc_inj_0. f_equal. ring.
Qed.

Lemma isSelected_true (selected : gmap string bool) (a : SubscriptionAddOn) :
  isSelected selected a = true <-> selected !! id a = Some true.
Proof.
  unfold isSelected. destruct (selected !! id a) as [[]|]; naive_solver.
Qed.

(** The reducer, from any starting sum. *)
Lemma reduce_sum (items : list SubscriptionAddOn) (selected : gmap string bool)
    (acc : number) :
  fold_left
    (fun sum a =>
       if negb (isSelected selected a) then sum else add sum (priceOf a))
    items acc
  = add acc (sumNumbers (priceOf <$> selectedItems items selected)).
Proof.
  revert acc. induction items as [|a items IH]; intros acc.
  - simpl. by rewrite add_zero_r.
  - simpl fold_left. rewrite IH. unfold selectedItems. rewrite filter_cons.
    destruct (isSelected selected a) eqn:Hsel.
    + apply isSelected_true in Hsel. rewrite decide_True by done.
      simpl. by rewrite add_assoc.
    + rewrite decide_False; [done|].
      intros Hs. apply isSelected_true in Hs. congruence.
Qed.

Lemma total_sum (items : list SubscriptionAddOn) (selected : gmap string bool) :
  total items selected = sumNumbers (priceOf <$> selectedItems items selected).
Proof.
  unfold total. case_bool_decide as Hlen.
  - apply length_zero_iff_nil in Hlen. by subst.
  - fold priceOf. change (fun sum a =>
       if negb (isSelected selected a) then sum
       else add sum (nullish (price_idr a) zero))
      with (fun sum a =>
       if negb (isSelected selected a) then sum else add sum (priceOf a)).
    by rewrite reduce_sum, add_zero_l.
Qed.

Lemma selectedItems_ext (items : list SubscriptionAddOn) (s1 s2 : gmap string bool) :
  (forall a, a ∈ items -> s1 !! id a = s2 !! id a) ->
  selectedItems items s1 = selectedItems items s2.
Proof.
  unfold selectedItems. induction items as [|a items IH]; intros Hext; [done|].
  rewrite !filter_cons, (Hext a) by apply list_elem_of_here.
  rewrite IH; [done|]. intros b Hb. apply Hext. by apply list_elem_of_further.
Qed.

Lemma selectedItems_empty (items : list SubscriptionAddOn) :
  selectedItems items ∅ = [].
Proof.
  unfold selectedItems. induction items as [|a items IH]; [done|].
  rewrite filter_cons, lookup_empty. by rewrite decide_False.
Qed.

End AddOns.

(** C10.  The subscription add-on total is the sum of [price_idr] (a missing
    price counting as 0) over the fetched add-ons whose id maps to [true] in
    the selection.  Selecting an id that no fetched add-on carries changes
    nothing; an empty catalog and an empty selection give 0; and the checkout
    add-ons total is the package-scoped total plus this total. *)
Theorem subscription_addOns_total
    (items : list SubscriptionAddOns.SubscriptionAddOn)
    (selected : gmap string bool) (packageAddOnsTotal : number) :
  SubscriptionAddOns.total items selected
    = sumNumbers (priceOf <$> selectedItems items selected) /\
  (forall i : string,
      (forall a, a ∈ items -> SubscriptionAddOns.id a <> i) ->
      SubscriptionAddOns.total items (<[i := true]> selected)
        = SubscriptionAddOns.total items selected) /\
  SubscriptionAddOns.total [] selected = zero /\
  SubscriptionAddOns.total items ∅ = zero /\
  Billing.addOnsTotal packageAddOnsTotal (SubscriptionAddOns.total items selected)
    = add packageAddOnsTotal
          (sumNumbers (priceOf <$> selectedItems items selected)).
Proof.
  split; [apply total_sum | split; [|split; [done | split]]].
  - intros i Habsent. rewrite !total_sum. do 2 f_equal.
    apply selectedItems_ext. intros a Ha.
    apply lookup_insert_ne. intros ->. by apply (Habsent a Ha).
  - by rewrite total_sum, selectedItems_empty.
  - unfold Billing.addOnsTotal. by rewrite total_sum.
Qed.

Lemma subscription_addOns_total_witness :
  (forall a, a ∈ addOnCatalog -> SubscriptionAddOns.id a <> "ghost") /\
  SubscriptionAddOns.total addOnCatalog
    (<["ghost" := true]> {[ "seo" := true; "ads" := false; "mail" := true ]})
  = SubscriptionAddOns.total addOnCatalog
      {[ "seo" := true; "ads" := false; "mail" := true ]} /\
  SubscriptionAddOns.total addOnCatalog
    {[ "seo" := true; "ads" := false; "mail" := true ]} = ofZ 150000.
Proof.
  assert (Habsent : forall a, a ∈ addOnCatalog -> SubscriptionAddOns.id a <> "ghost").
  { apply (proj1 (list.Forall_forall (fun a => SubscriptionAddOns.id a <> "ghost")
                                  addOnCatalog)).
    unfold addOnCatalog. by repeat constructor. }
  split; [exact Habsent | split].
  - exact (proj1 (proj2 (subscription_addOns_total addOnCatalog
                           {[ "seo" := true; "ads" := false; "mail" := true ]}
                           zero)) "ghost" Habsent).
  - js_decide.
Defined.

(* ===================================================================== *)
(** ** The duration-discount lookup *)
(* ===================================================================== *)

Section DiscountLookup.

Import Billing.

Lemma step_entersMap (m : gmap number number) (r : DurationRow) :
  discountByMonths_step m r
  = if entersMap r then <[monthsOf r := percentOf r]> m else m.
Proof.
  unfold discountByMonths_step, entersMap. fold (monthsOf r) (percentOf r).
  by case_bool_decide.
Qed.

Lemma fold_keeps_key (rows : list DurationRow) (m : gmap number number) (k : number) :
  is_Some (m !! k) -> is_Some (fold_left discountByMonths_step rows m !! k).
Proof.
  revert m. induction rows as [|r rows IH]; intros m Hk; [done|].
  simpl. apply IH. rewrite step_entersMap.
  destruct (entersMap r); [|done].
  apply lookup_insert_is_Some. destruct (decide (monthsOf r = k)); auto.
Qed.

Lemma fold_lookup_is_Some (rows : list DurationRow) (m : gmap number number)
    (r : DurationRow) :
  r ∈ rows -> entersMap r = true ->
  is_Some (fold_left discountByMonths_step rows m !! monthsOf r).
Proof.
  revert m. induction rows as [|r' rows IH]; intros m Hin He.
  - by apply not_elem_of_nil in Hin.
  - simpl. apply elem_of_cons in Hin as [-> | Hin]; [|by apply IH].
    apply fold_keeps_key. rewrite step_entersMap, He.
    rewrite lookup_insert_eq. eauto.
Qed.

Lemma fold_lookup_Some (rows : list DurationRow) (m : gmap number number)
    (k d : number) :
  fold_left discountByMonths_step rows m !! k = Some d ->
  m !! k = Some d \/
  exists r, r ∈ rows /\ entersMap r = true /\ monthsOf r = k /\ percentOf r = d.
Proof.
  revert m. induction rows as [|r rows IH]; intros m Hk; [by left|].
  simpl in Hk. apply IH in Hk as [Hk | (r' & Hin & He & Hm & Hp)].
  - rewrite step_entersMap in Hk. destruct (entersMap r) eqn:He; [|by left].
    destruct (decide (monthsOf r = k)) as [Heq | Hne].
    + subst k. rewrite lookup_insert_eq in Hk. injection Hk as <-.
      right. exists r. split; [apply list_elem_of_here | done].
    + rewrite lookup_insert_ne in Hk by done. by left.
  - right. exists r'. split; [by apply list_elem_of_further | done].
Qed.


Lemma size_pos_lookup (m : gmap number number) :
  (0 < size m)%nat <-> exists k d, m !! k = Some d.
Proof.
  split.
  - intros Hsz. apply map_choose. intros ->. rewrite map_size_empty in Hsz. lia.
  - intros (k & d & Hk).
    assert (size m <> 0%nat); [|lia].
    intros Hz. apply map_size_empty_iff in Hz. subst m.
    by rewrite lookup_empty in Hk.
Qed.

(** The map is non-empty exactly when some row enters it. *)
Lemma discountByMonths_nonempty (rows : list DurationRow) :
  (0 < size (discountByMonths rows))%nat
  <-> exists r, r ∈ rows /\ entersMap r = true.
Proof.
  rewrite size_pos_lookup. split.
  - intros (k & d & Hk).
    apply fold_lookup_Some in Hk as [Hk | (r & Hin & He & _)].
    + by rewrite lookup_empty in Hk.
    + eauto.
  - intros (r & Hin & He).
    destruct (fold_lookup_is_Some rows ∅ r Hin He) as [d Hd].
    by exists (monthsOf r), d.
Qed.

(** A requested month count that matches a row of the map comes from a
    truthy number of years. *)
Lemma truthy_of_months (y : number) :
  isFinite (mul y (ofZ 12)) && gtb (mul y (ofZ 12)) zero = true -> truthy y = true.
Proof.
  destruct y as [q| | |]; try done.
  change (mul (Fin q) (ofZ 12)) with (Fin (q * Qc_of_Z 12)%Qc).
  rewrite gtb_zero. simpl.
  intros Hpos%bool_decide_eq_true. apply negb_true_iff, bool_decide_eq_false.
  intros ->. revert Hpos. replace (0 * Qc_of_Z 12)%Qc with 0%Qc by ring.
  apply Qcle_not_lt, Qcle_refl.
Qed.

End DiscountLookup.

(* ===================================================================== *)
(** ** Total resolution chain *)
(* ===================================================================== *)

Section Chain.

Import Billing.

Variable computeDiscountedTotal : number -> number -> number -> number.

(** [baseTotalUsd] is the result of the one branch that [pricingSource]
    names. *)
Lemma baseTotalUsd_by_source
    (ys : option number) (m : gmap number number) (pricing : Pricing)
    (plans : list PlanRow.t) (addOns : number) :
  baseTotalUsd computeDiscountedTotal ys m pricing plans addOns =
    match pricingSource ys m plans, ys with
    | DurationDiscount, Some y => durationPathTotal computeDiscountedTotal y m pricing addOns
    | LegacyPlan, Some y => (fun v => add v addOns) <$> planOverrideUsd plans y
    | RawBase, Some y => rawBaseTotal y pricing addOns
    | _, _ => None
    end.
Proof.
  unfold baseTotalUsd, pricingSource, durationPathTotal, rawBaseTotal.
  destruct ys as [y|]; [|done].
  destruct (truthy y); [|done]. simpl negb. cbv iota.
  case_bool_decide; [done|].
  by destruct (planOverrideUsd plans y).
Qed.

Lemma baseTotalUsd_duration
    (y : number) (m : gmap number number) (pricing : Pricing)
    (plans : list PlanRow.t) (addOns : number) :
  truthy y = true -> (0 < size m)%nat ->
  pricingSource (Some y) m plans = DurationDiscount /\
  baseTotalUsd computeDiscountedTotal (Some y) m pricing plans addOns
    = durationPathTotal computeDiscountedTotal y m pricing addOns.
Proof.
  intros Hy Hm.
  assert (Hsrc : pricingSource (Some y) m plans = DurationDiscount).
  { unfold pricingSource. rewrite Hy. simpl. by rewrite bool_decide_eq_true_2. }
  split; [done|]. by rewrite baseTotalUsd_by_source, Hsrc.
Qed.

End Chain.

(** C1, as stated, fails: the only row for the requested 12 months is marked
    inactive, so it never enters the lookup, the map is empty and the legacy
    plan price decides the total (550 against 950). *)
Lemma precedence_counterexample :
  (exists r, r ∈ [inactiveRow] /\ monthsOf r = mul (ofZ 1) (ofZ 12)) /\
  Billing.baseTotalUsd Billing.computeDiscountedTotal_spec (Some (ofZ 1))
    (Billing.discountByMonths [inactiveRow]) pricing300
    [planRow 1 (ofZ 500) true] (ofZ 50) = Some (ofZ 550) /\
  Billing.baseTotalUsd Billing.computeDiscountedTotal_spec (Some (ofZ 1))
    (Billing.discountByMonths [inactiveRow]) pricing300
    [planRow 1 (ofZ 900) true] (ofZ 50) = Some (ofZ 950) /\
  Billing.baseTotalUsd Billing.computeDiscountedTotal_spec (Some (ofZ 1))
    (Billing.discountByMonths [inactiveRow]) pricing300
    [planRow 1 (ofZ 500) true] (ofZ 50)
  <> Billing.baseTotalUsd Billing.computeDiscountedTotal_spec (Some (ofZ 1))
    (Billing.discountByMonths [inactiveRow]) pricing300
    [planRow 1 (ofZ 900) true] (ofZ 50).
Proof.
  split; [|split; [js_decide | split; js_decide]].
  exists inactiveRow. split; [apply list_elem_of_here | js_decide].
Qed.

(** C1, amended.  When the duration rows contain a row for the requested
    duration that is not marked inactive (its month count, finite and
    positive, equals [years * 12]), the total is the result of the
    duration-discount branch: it is the same for every legacy plan table, it
    is a function of the discount map, the base prices and the add-ons total
    only, and the discount percent it uses is that of such a row. *)
Theorem duration_row_precedence
    (computeDiscountedTotal : number -> number -> number -> number)
    (y : number) (rows : list Billing.DurationRow) (pricing : Billing.Pricing)
    (plans plans' : list PlanRow.t) (addOns : number) (r : Billing.DurationRow) :
  r ∈ rows -> entersMap r = true -> monthsOf r = mul y (ofZ 12) ->
  Billing.baseTotalUsd computeDiscountedTotal (Some y)
    (Billing.discountByMonths rows) pricing plans addOns
  = Billing.baseTotalUsd computeDiscountedTotal (Some y)
      (Billing.discountByMonths rows) pricing plans' addOns /\
  Billing.pricingSource (Some y) (Billing.discountByMonths rows) plans
  = Billing.DurationDiscount /\
  Billing.baseTotalUsd computeDiscountedTotal (Some y)
    (Billing.discountByMonths rows) pricing plans addOns
  = durationPathTotal computeDiscountedTotal y
      (Billing.discountByMonths rows) pricing addOns /\
  exists r', r' ∈ rows /\ entersMap r' = true /\ monthsOf r' = mul y (ofZ 12) /\
             Billing.discountByMonths rows !! mul y (ofZ 12) = Some (percentOf r').
Proof.
  intros Hin He Hm.
  assert (Hy : truthy y = true).
  { apply truthy_of_months. rewrite <- Hm.
    unfold entersMap in He. by apply andb_true_iff in He as [_ He]. }
  assert (Hsz : (0 < size (Billing.discountByMonths rows))%nat)
    by (apply discountByMonths_nonempty; eauto).
  destruct (baseTotalUsd_duration computeDiscountedTotal y _ pricing plans addOns
              Hy Hsz) as [Hsrc Htot].
  destruct (baseTotalUsd_duration computeDiscountedTotal y _ pricing plans' addOns
              Hy Hsz) as [_ Htot'].
  split; [by rewrite Htot, Htot' | split; [done | split; [done|]]].
  destruct (fold_lookup_is_Some rows ∅ r Hin He) as [d Hd].
  rewrite Hm in Hd. fold (Billing.discountByMonths rows) in Hd.
  pose proof Hd as Hd'.
  apply fold_lookup_Some in Hd' as [Hemp | (r' & Hin' & He' & Hm' & Hp')].
  - by rewrite lookup_empty in Hemp.
  - exists r'. subst d. done.
Qed.

Lemma duration_row_precedence_witness :
  activeRow 12 10 ∈ [activeRow 24 20; activeRow 12 10] /\
  entersMap (activeRow 12 10) = true /\
  monthsOf (activeRow 12 10) = mul (ofZ 1) (ofZ 12) /\
  Billing.baseTotalUsd Billing.computeDiscountedTotal_spec (Some (ofZ 1))
    (Billing.discountByMonths [activeRow 24 20; activeRow 12 10]) pricing300
    [planRow 1 (ofZ 500) true] (ofZ 50)
  = Billing.baseTotalUsd Billing.computeDiscountedTotal_spec (Some (ofZ 1))
    (Billing.discountByMonths [activeRow 24 20; activeRow 12 10]) pricing300
    [planRow 1 (ofZ 900) true] (ofZ 50).
Proof.
  assert (Hin : activeRow 12 10 ∈ [activeRow 24 20; activeRow 12 10])
    by (apply list_elem_of_further, list_elem_of_here).
  assert (He : entersMap (activeRow 12 10) = true) by reflexivity.
  assert (Hm : monthsOf (activeRow 12 10) = mul (ofZ 1) (ofZ 12)) by js_decide.
  split; [exact Hin | split; [exact He | split; [exact Hm|]]].
  exact (proj1 (duration_row_precedence Billing.computeDiscountedTotal_spec
                  (ofZ 1) [activeRow 24 20; activeRow 12 10] pricing300
                  [planRow 1 (ofZ 500) true] [planRow 1 (ofZ 900) true] (ofZ 50)
                  (activeRow 12 10) Hin He Hm)).
Defined.




(** C2.  When the total comes from the duration-discount branch or from the
    raw base-price branch and the domain price or the package price is
    [null], the result is [null] (never 0).  In particular, with both base
    prices [null], an empty duration table and no legacy plan matching the
    requested years, the result is [null]. *)
Theorem unavailable_when_base_missing
    (computeDiscountedTotal : number -> number -> number -> number)
    (ys : option number) (pricing : Billing.Pricing)
    (plans : list PlanRow.t) (addOns : number) :
  (forall m : gmap number number,
      Billing.pricingSource ys m plans = Billing.DurationDiscount \/
      Billing.pricingSource ys m plans = Billing.RawBase ->
      Billing.domainPriceUsd pricing = None \/ Billing.packagePriceUsd pricing = None ->
      Billing.baseTotalUsd computeDiscountedTotal ys m pricing plans addOns = None) /\
  ((forall y, ys = Some y -> Billing.selectedPlan plans y = None) ->
   Billing.baseTotalUsd computeDiscountedTotal ys (Billing.discountByMonths [])
     noPricing plans addOns = None).
Proof.
  split.
  - intros m Hsrc Hnull. rewrite baseTotalUsd_by_source.
    destruct ys as [y|]; [|by destruct (Billing.pricingSource None m plans)].
    unfold durationPathTotal, rawBaseTotal.
    destruct Hsrc as [-> | ->];
      destruct Hnull as [-> | ->]; try done;
      by destruct (Billing.domainPriceUsd pricing).
  - intros Hnone. destruct ys as [y|]; [|done].
    unfold Billing.baseTotalUsd, Billing.planOverrideUsd.
    rewrite (Hnone y eq_refl). simpl.
    by destruct (truthy y).
Qed.

Lemma unavailable_when_base_missing_witness :
  (Billing.pricingSource (Some (ofZ 2)) (Billing.discountByMonths [activeRow 12 10])
     [planRow 2 (ofZ 500) true] = Billing.DurationDiscount /\
   Billing.baseTotalUsd Billing.computeDiscountedTotal_spec (Some (ofZ 2))
     (Billing.discountByMonths [activeRow 12 10])
     {| Billing.domainPriceUsd := Some (ofZ 100); Billing.packagePriceUsd := None |}
     [planRow 2 (ofZ 500) true] (ofZ 50) = None) /\
  ((forall y, Some (ofZ 2) = Some y ->
              Billing.selectedPlan [planRow 3 (ofZ 500) true] y = None) /\
   Billing.baseTotalUsd Billing.computeDiscountedTotal_spec (Some (ofZ 2))
     (Billing.discountByMonths []) noPricing [planRow 3 (ofZ 500) true] (ofZ 50)
   = None).
Proof.
  split.
  - assert (Hsrc : Billing.pricingSource (Some (ofZ 2))
                     (Billing.discountByMonths [activeRow 12 10])
                     [planRow 2 (ofZ 500) true] = Billing.DurationDiscount)
      by js_decide.
    split; [exact Hsrc|].
    apply (proj1 (unavailable_when_base_missing Billing.computeDiscountedTotal_spec
                    (Some (ofZ 2))
                    {| Billing.domainPriceUsd := Some (ofZ 100);
                       Billing.packagePriceUsd := None |}
                    [planRow 2 (ofZ 500) true] (ofZ 50))
                 _ (or_introl Hsrc) (or_intror eq_refl)).
  - assert (Hnone : forall y, Some (ofZ 2) = Some y ->
                      Billing.selectedPlan [planRow 3 (ofZ 500) true] y = None).
    { intros y [= <-]. js_decide. }
    split; [exact Hnone|].
    exact (proj2 (unavailable_when_base_missing Billing.computeDiscountedTotal_spec
                    (Some (ofZ 2)) noPricing [planRow 3 (ofZ 500) true] (ofZ 50))
                 Hnone).
Defined.

Lemma selectedPlan_first
    (before after : list PlanRow.t) (p : PlanRow.t) (y : number) :
  (forall p', p' ∈ before -> strictEq (PlanRow.years p') y = false) ->
  strictEq (PlanRow.years p) y = true ->
  Billing.selectedPlan (before ++ p :: after) y = Some p.
Proof.
  unfold Billing.selectedPlan. intros Hbefore Hp.
  induction before as [|b before IH]; simpl.
  - by rewrite Hp.
  - rewrite (Hbefore b) by apply list_elem_of_here.
    apply IH. intros p' Hp'. apply Hbefore. by apply list_elem_of_further.
Qed.

(** C9.  With an empty duration-discount map, the legacy lookup takes the
    first plan row whose [years] equals the requested years, whatever its
    [is_active] flag: when its price is finite the total is that price plus
    the add-ons total. *)
Theorem legacy_plan_ignores_is_active
    (computeDiscountedTotal : number -> number -> number -> number)
    (y : number) (pricing : Billing.Pricing)
    (before after : list PlanRow.t) (p : PlanRow.t)
    (addOns : number) (q : Qc) :
  truthy y = true ->
  (forall p', p' ∈ before -> strictEq (PlanRow.years p') y = false) ->
  strictEq (PlanRow.years p) y = true ->
  PlanRow.price_usd p = Fin q ->
  Billing.selectedPlan (before ++ p :: after) y = Some p /\
  Billing.pricingSource (Some y) ∅ (before ++ p :: after) = Billing.LegacyPlan /\
  Billing.baseTotalUsd computeDiscountedTotal (Some y) ∅ pricing
    (before ++ p :: after) addOns = Some (add (Fin q) addOns).
Proof.
  intros Hy Hbefore Hp Hprice.
  pose proof (selectedPlan_first before after p y Hbefore Hp) as Hsel.
  assert (Hplan : Billing.planOverrideUsd (before ++ p :: after) y = Some (Fin q)).
  { unfold Billing.planOverrideUsd. by rewrite Hsel, Hprice. }
  split; [done|].
  unfold Billing.pricingSource, Billing.baseTotalUsd.
  rewrite Hy, Hplan. simpl negb. cbv iota.
  rewrite map_size_empty. by rewrite bool_decide_eq_false_2 by lia.
Qed.

Lemma legacy_plan_ignores_is_active_witness :
  truthy (ofZ 3) = true /\
  PlanRow.is_active (planRow 3 (ofZ 500) false) = false /\
  Billing.baseTotalUsd Billing.computeDiscountedTotal_spec (Some (ofZ 3))
    (Billing.discountByMonths []) pricing300
    ([planRow 1 (ofZ 200) true] ++ planRow 3 (ofZ 500) false
       :: [planRow 3 (ofZ 700) true])
    (ofZ 50) = Some (ofZ 550).
Proof.
  split; [reflexivity | split; [reflexivity|]].
  assert (Hbefore : forall p', p' ∈ [planRow 1 (ofZ 200) true] ->
                      strictEq (PlanRow.years p') (ofZ 3) = false).
  { intros p' ->%list_elem_of_singleton. reflexivity. }
  change (Billing.discountByMonths []) with (∅ : gmap number number).
  rewrite (proj2 (proj2 (legacy_plan_ignores_is_active
                    Billing.computeDiscountedTotal_spec (ofZ 3) pricing300
                    [planRow 1 (ofZ 200) true] [planRow 3 (ofZ 700) true]
                    (planRow 3 (ofZ 500) false) (ofZ 50) (Qc_of_Z 500)
                    eq_refl Hbefore eq_refl eq_refl))).
  f_equal. js_decide.
Defined.

(* ===================================================================== *)
(** ** Admin draft calculator against the checkout *)
(* ===================================================================== *)

(** C3, as stated, fails: with an annual base of 12, a discount of 10 percent
    and 3 years, the admin screen rounds 10.8 to 11 per year and shows 33,
    while the checkout subtotal is 36 * 1 * 0.9 = 32.4. *)
Lemma admin_checkout_counterexample :
  Admin.computeAnnualBase roundingDraft = ofZ 12 /\
  adminTotalForDuration roundingDraft (ofZ 3) = Some (ofZ 33) /\
  checkoutDurationSubtotal (Admin.computeAnnualBase roundingDraft) (ofZ 3) (ofZ 10)
    = Fin (Q2Qc (162 # 5)) /\
  Billing.baseTotalUsd Billing.computeDiscountedTotal_spec (Some (ofZ 3))
    (Billing.discountByMonths [activeRow 36 10])
    {| Billing.domainPriceUsd := Some (ofZ 12);
       Billing.packagePriceUsd := Some (ofZ 0) |}
    [] zero = Some (Fin (Q2Qc (162 # 5))) /\
  adminTotalForDuration roundingDraft (ofZ 3)
  <> Some (checkoutDurationSubtotal (Admin.computeAnnualBase roundingDraft)
             (ofZ 3) (ofZ 10)).
Proof.
  split; [js_decide | split; [js_decide | split; [js_decide | split; js_decide]]].
Qed.

Section AdminVersusCheckout.

Import Admin JsFacts.

Lemma div_12 (d : Qc) : div (Fin d) (ofZ 12) = Fin (d / Qc_of_Z 12)%Qc.
Proof. reflexivity. Qed.

Lemma Qc_per_month (a x y : Qc) :
  (a / Qc_of_Z 12 * x * (y * Qc_of_Z 12) = a * x * y)%Qc.
Proof.
  assert (H12 : Qc_of_Z 12 <> 0%Qc) by js_decide.
  generalize dependent (Qc_of_Z 12). intros k Hk. by field.
Qed.

End AdminVersusCheckout.

(** C3, amended.  For an unlocked bucket with a finite discount percent and a
    whole number of years, if the discounted annual price
    [annualBase * (1 - clampedDiscount / 100)] is a whole number, then the
    total of the admin draft calculator equals the subtotal of the checkout's
    duration-discount branch with [monthlyPrice = annualBase / 12] over
    [years * 12] months; both are that price times the years. *)
Theorem admin_total_matches_checkout
    (draft : Admin.WebsitePlanPricingDraft) (d : Admin.WebsitePlanDurationDraft)
    (yz p : Z) (dq : Qc) :
  Admin.durations draft !! ofZ yz = Some d ->
  Admin.is_manual_locked d = false ->
  Admin.discount_percent d = Fin dq ->
  mul (Admin.computeAnnualBase draft)
      (sub (ofZ 1) (div (clampDiscount (VNum (Fin dq))) (ofZ 100))) = ofZ p ->
  adminTotalForDuration draft (ofZ yz)
    = Some (checkoutDurationSubtotal (Admin.computeAnnualBase draft)
              (ofZ yz) (Fin dq)) /\
  adminTotalForDuration draft (ofZ yz) = Some (ofZ (p * yz)).
Proof.
  intros Hd Hlock Hdisc Hwhole.
  assert (Hadmin : adminTotalForDuration draft (ofZ yz) = Some (ofZ (p * yz))).
  { assert (Hauto : Admin.computeAutoPricePerYear draft (ofZ yz) = ofZ p).
    { unfold Admin.computeAutoPricePerYear, Admin.discountOf. rewrite Hd, Hdisc.
      fold (clampDiscount (VNum (Fin dq))). rewrite Hwhole.
      apply JsFacts.round_ofZ. }
    unfold adminTotalForDuration, Admin.durationView.
    rewrite Hd, Hlock, Hauto. cbn [fmap option_fmap option_map Admin.totalForDuration].
    by rewrite mul_ofZ, JsFacts.round_ofZ. }
  split; [|exact Hadmin]. rewrite Hadmin. f_equal.
  unfold checkoutDurationSubtotal, Billing.durationSubtotal,
    Billing.computeDiscountedTotal_spec.
  change (Js.min (ofZ 100) (Js.max zero (Fin dq)))
    with (clampDiscount (VNum (Fin dq))).
  revert Hwhole.
  destruct (computeAnnualBase_ofZ draft) as (a & _ & ->).
  destruct (clampDiscount_range (VNum (Fin dq))) as (c & -> & _).
  rewrite div_100. unfold ofZ. rewrite div_12.
  cbn [mul sub neg add]. intros Hwhole%JsFacts.Fin_inj. f_equal.
  rewrite Qc_per_month, Z2Qc_inj_mul. by rewrite <- Hwhole.
Qed.

Lemma admin_total_matches_checkout_witness :
  mul (Admin.computeAnnualBase scenarioA_draft)
      (sub (ofZ 1) (div (clampDiscount (VNum (ofZ 10))) (ofZ 100))) = ofZ 1080000 /\
  adminTotalForDuration scenarioA_draft (ofZ 2)
    = Some (checkoutDurationSubtotal (Admin.computeAnnualBase scenarioA_draft)
              (ofZ 2) (ofZ 10)) /\
  adminTotalForDuration scenarioA_draft (ofZ 2) = Some (ofZ 2160000).
Proof.
  assert (Hwhole : mul (Admin.computeAnnualBase scenarioA_draft)
            (sub (ofZ 1) (div (clampDiscount (VNum (ofZ 10))) (ofZ 100)))
          = ofZ 1080000) by js_decide.
  split; [exact Hwhole|].
  exact (admin_total_matches_checkout scenarioA_draft
           (bucket 10 None false)
           2 1080000 (Qc_of_Z 10) eq_refl eq_refl eq_refl Hwhole).
Defined.

(* ===================================================================== *)
(** ** Further properties of the checkout *)
(* ===================================================================== *)

Section LookupMore.

Import Billing.

Lemma fold_lookup_frame (rows : list DurationRow) (m : gmap number number) (k : number) :
  (forall r, r ∈ rows -> entersMap r = true -> monthsOf r <> k) ->
  fold_left discountByMonths_step rows m !! k = m !! k.
Proof.
  revert m. induction rows as [|r rows IH]; intros m Hno; [done|].
  simpl. rewrite IH.
  - rewrite step_entersMap. destruct (entersMap r) eqn:He; [|done].
    apply lookup_insert_ne. apply Hno; [apply list_elem_of_here | done].
  - intros r' Hr'. apply Hno. by apply list_elem_of_further.
Qed.

Lemma fold_size_bound (rows : list DurationRow) (m : gmap number number) :
  (size (fold_left discountByMonths_step rows m) <= size m + length rows)%nat.
Proof.
  revert m. induction rows as [|r rows IH]; intros m; simpl; [lia|].
  etrans; [apply IH|]. rewrite step_entersMap.
  destruct (entersMap r); [|lia].
  rewrite map_size_insert. destruct (m !! monthsOf r); simpl; lia.
Qed.

Lemma entersMap_positive (r : DurationRow) :
  entersMap r = true -> exists q : Qc, monthsOf r = Fin q /\ (0 < q)%Qc.
Proof.
  unfold entersMap. intros [_ [Hfin Hpos]%andb_true_iff]%andb_true_iff.
  apply JsFacts.isFinite_Fin in Hfin as [q Hq]. rewrite Hq in Hpos.
  rewrite gtb_zero in Hpos. apply bool_decide_eq_true in Hpos. by exists q.
Qed.

End LookupMore.

(** X1.  Last write wins: the discount percent stored for a month count is
    that of the last row, among the rows that are not marked inactive and
    have a finite positive month count, with that month count. *)
Theorem discountByMonths_last_write_wins
    (before after : list Billing.DurationRow) (r : Billing.DurationRow) :
  entersMap r = true ->
  (forall r', r' ∈ after -> entersMap r' = true -> monthsOf r' <> monthsOf r) ->
  Billing.discountByMonths (before ++ r :: after) !! monthsOf r = Some (percentOf r).
Proof.
  intros He Hafter. unfold Billing.discountByMonths.
  rewrite fold_left_app. simpl.
  rewrite fold_lookup_frame by done.
  rewrite step_entersMap, He. apply lookup_insert_eq.
Qed.

Lemma discountByMonths_last_write_wins_witness :
  entersMap (activeRow 12 15) = true /\
  Billing.discountByMonths
    ([activeRow 12 10; activeRow 24 20] ++ activeRow 12 15 :: [inactiveRow; activeRow 36 30])
    !! ofZ 12 = Some (ofZ 15).
Proof.
  split; [reflexivity|].
  apply (discountByMonths_last_write_wins
           [activeRow 12 10; activeRow 24 20] [inactiveRow; activeRow 36 30]
           (activeRow 12 15) eq_refl).
  intros r' Hr' He.
  apply elem_of_cons in Hr' as [-> | Hr']; [done|].
  apply list_elem_of_singleton in Hr' as ->. js_decide.
Defined.

(** X2.  Every key of the discount map is a finite, positive month count, and
    the map has at most one entry per duration row. *)
Theorem discountByMonths_keys_positive
    (rows : list Billing.DurationRow) (k d : number) :
  Billing.discountByMonths rows !! k = Some d ->
  (exists q : Qc, k = Fin q /\ (0 < q)%Qc) /\
  (size (Billing.discountByMonths rows) <= length rows)%nat.
Proof.
  intros Hk. split.
  - apply fold_lookup_Some in Hk as [Hk | (r & _ & He & Hm & _)].
    + by rewrite lookup_empty in Hk.
    + subst k. by apply entersMap_positive.
  - pose proof (fold_size_bound rows ∅) as Hsz.
    rewrite map_size_empty in Hsz. exact Hsz.
Qed.

Lemma discountByMonths_keys_positive_witness :
  Billing.discountByMonths [activeRow 12 10; activeRow 0 50; activeRow 12 15]
    !! ofZ 12 = Some (ofZ 15) /\
  (exists q : Qc, ofZ 12 = Fin q /\ (0 < q)%Qc) /\
  (size (Billing.discountByMonths [activeRow 12 10; activeRow 0 50; activeRow 12 15])
   <= 3)%nat.
Proof.
  assert (Hk : Billing.discountByMonths
                 [activeRow 12 10; activeRow 0 50; activeRow 12 15]
                 !! ofZ 12 = Some (ofZ 15)) by js_decide.
  split; [exact Hk|].
  exact (discountByMonths_keys_positive _ _ _ Hk).
Defined.

(** X3.  Whatever the applied promo holds, a finite base total gives a total
    after promo between 0 and [max(0, base)] and an invoiced amount that is a
    whole number, not negative; a discount that is not a finite positive
    number ([NaN], an infinity, zero, negative) leaves the total at
    [max(0, base)]. *)
Theorem promo_never_raises_total
    (appliedPromo : option AppliedPromo.t) (base : Qc) :
  let d := nullish (AppliedPromo.discountUsd <$> appliedPromo) zero in
  let usd := Billing.totalAfterPromoUsd (Some (Fin base)) appliedPromo in
  (exists t b : Qc,
      usd = Some (Fin t) /\ max zero (Fin base) = Fin b /\
      (0 <= t)%Qc /\ (t <= b)%Qc) /\
  (exists i : Z, Billing.totalAfterPromoIdr usd = Some (ofZ i) /\ (0 <= i)%Z) /\
  (isFinite d && gtb d zero = false -> usd = Some (max zero (Fin base))).
Proof.
  intros d usd.
  assert (Hdisc : exists c : Qc,
            (0 <= c)%Qc /\ usd = Some (max zero (Fin (base + - c)%Qc)) /\
            (isFinite d && gtb d zero = false -> c = 0%Qc)).
  { subst usd. unfold Billing.totalAfterPromoUsd. fold d.
    destruct (isFinite d && gtb d zero) eqn:Hd.
    - apply andb_true_iff in Hd as [Hfin Hpos].
      apply JsFacts.isFinite_Fin in Hfin as [c Hc]. rewrite Hc in Hpos |- *.
      rewrite gtb_zero in Hpos. apply bool_decide_eq_true in Hpos.
      exists c. split; [by apply Qclt_le_weak | split; [done | done]].
    - exists 0%Qc. split; [apply Qcle_refl | split; [|done]].
      unfold zero at 2, ofZ. by rewrite Z2Qc_inj_0. }
  destruct Hdisc as (c & Hc & Husd & Hzero).
  destruct (max_zero_nonneg (base + - c)%Qc) as (t & Ht & Htpos).
  destruct (max_zero_nonneg base) as (b & Hb & Hbpos).
  split; [|split].
  - exists t, b. rewrite Husd, Ht. split; [done | split; [done | split; [done|]]].
    revert Ht Hb. unfold max, zero, ofZ, ltb. rewrite Z2Qc_inj_0.
    assert (Hle : (base + - c <= base)%Qc).
    { rewrite <- (Qcplus_0_r base) at 2.
      apply Qcplus_le_compat; [apply Qcle_refl|].
      replace 0%Qc with (- 0)%Qc by ring. by apply Qcopp_le_compat. }
    case_bool_decide as H1; case_bool_decide as H2;
      intros Ht%JsFacts.Fin_inj Hb%JsFacts.Fin_inj; subst t b.
    + exact Hle.
    + exfalso. apply H2. eapply Qclt_le_trans; [exact H1 | exact Hle].
    + by apply Qclt_le_weak.
    + apply Qcle_refl.
  - rewrite Husd, Ht. unfold Billing.totalAfterPromoIdr.
    rewrite max_zero_round by done. rewrite round_Fin. eexists. split; [done|].
    by apply round_nonneg.
  - intros Hd. rewrite Husd, (Hzero Hd). do 3 f_equal. ring.
Qed.

Lemma promo_never_raises_total_witness :
  isFinite NaN && gtb NaN zero = false /\
  Billing.totalAfterPromoUsd (Some (ofZ 100)) (Some promoNaN) = Some (ofZ 100).
Proof.
  split; [reflexivity|].
  change (ofZ 100) with (Fin (Qc_of_Z 100)) at 1.
  rewrite (proj2 (proj2 (promo_never_raises_total (Some promoNaN) (Qc_of_Z 100)))
             eq_refl).
  f_equal.
Defined.

(** X4.  Only the first plan row whose years match is consulted: when its
    price is not a finite number the total is the one of the raw base-price
    branch, even if a later row for the same years carries a finite price. *)
Theorem first_matching_plan_decides
    (computeDiscountedTotal : number -> number -> number -> number)
    (y : number) (pricing : Billing.Pricing)
    (before after : list PlanRow.t) (p : PlanRow.t) (addOns : number) :
  truthy y = true ->
  (forall p', p' ∈ before -> strictEq (PlanRow.years p') y = false) ->
  strictEq (PlanRow.years p) y = true ->
  isFinite (PlanRow.price_usd p) = false ->
  Billing.pricingSource (Some y) ∅ (before ++ p :: after) = Billing.RawBase /\
  Billing.baseTotalUsd computeDiscountedTotal (Some y) ∅ pricing
    (before ++ p :: after) addOns = rawBaseTotal y pricing addOns.
Proof.
  intros Hy Hbefore Hp Hprice.
  assert (Hplan : Billing.planOverrideUsd (before ++ p :: after) y = None).
  { unfold Billing.planOverrideUsd.
    by rewrite (selectedPlan_first before after p y Hbefore Hp), Hprice. }
  assert (Hsrc : Billing.pricingSource (Some y) ∅ (before ++ p :: after)
                 = Billing.RawBase).
  { unfold Billing.pricingSource. rewrite Hy, Hplan. simpl negb. cbv iota.
    rewrite map_size_empty. by rewrite bool_decide_eq_false_2 by lia. }
  split; [done|]. by rewrite baseTotalUsd_by_source, Hsrc.
Qed.

Lemma first_matching_plan_decides_witness :
  truthy (ofZ 2) = true /\
  isFinite (PlanRow.price_usd (planRow 2 NaN true)) = false /\
  Billing.baseTotalUsd Billing.computeDiscountedTotal_spec (Some (ofZ 2))
    (Billing.discountByMonths []) pricing300
    ([planRow 1 (ofZ 200) true] ++ planRow 2 NaN true :: [planRow 2 (ofZ 500) true])
    (ofZ 50) = Some (ofZ 650).
Proof.
  split; [reflexivity | split; [reflexivity|]].
  assert (Hbefore : forall p', p' ∈ [planRow 1 (ofZ 200) true] ->
                      strictEq (PlanRow.years p') (ofZ 2) = false).
  { intros p' ->%list_elem_of_singleton. reflexivity. }
  change (Billing.discountByMonths []) with (∅ : gmap number number).
  rewrite (proj2 (first_matching_plan_decides Billing.computeDiscountedTotal_spec
                    (ofZ 2) pricing300 [planRow 1 (ofZ 200) true]
                    [planRow 2 (ofZ 500) true] (planRow 2 NaN true) (ofZ 50)
                    eq_refl Hbefore eq_refl eq_refl)).
  js_decide.
Defined.

(* ===================================================================== *)
(** ** Further properties of the add-on total *)
(* ===================================================================== *)

Section AddOnsMore.

Import SubscriptionAddOns.

Lemma add_comm (a b : number) : add a b = add b a.
Proof. destruct a, b; simpl; try done. f_equal. ring. Qed.

Lemma sumNumbers_cons (x : number) (l : list number) :
  sumNumbers (x :: l) = add x (sumNumbers l).
Proof. reflexivity. Qed.

(** The prices of the fetched add-ons that carry the id [i]. *)
Lemma toggle_sum (items : list SubscriptionAddOn) (selected : gmap string bool)
    (i : string) :
  sumNumbers (priceOf <$> selectedItems items (<[i := true]> selected))
  = add (sumNumbers (priceOf <$> selectedItems items (<[i := false]> selected)))
        (sumNumbers (priceOf <$> filter (fun a => id a = i) items)).
Proof.
  unfold selectedItems. induction items as [|a items IH].
  - symmetry. exact (add_zero_l zero).
  - rewrite !filter_cons. destruct (decide (id a = i)) as [Hi | Hi].
    + rewrite Hi, !lookup_insert_eq.
      rewrite decide_True by done. rewrite decide_False by done.
      rewrite !fmap_cons, !sumNumbers_cons, IH.
      rewrite !add_assoc. f_equal. apply add_comm.
    + rewrite !lookup_insert_ne by done.
      destruct (decide (selected !! id a = Some true)).
      * rewrite !fmap_cons, !sumNumbers_cons, IH. by rewrite add_assoc.
      * exact IH.
Qed.

Lemma filter_other_id (items : list SubscriptionAddOn) (i : string) :
  i ∉ id <$> items -> filter (fun b => id b = i) items = [].
Proof.
  induction items as [|b items IH]; intros Hi; [done|].
  rewrite fmap_cons in Hi. apply not_elem_of_cons in Hi as [Hne Hi].
  rewrite filter_cons, decide_False by done. by apply IH.
Qed.

Lemma filter_unique_id (items : list SubscriptionAddOn) (a : SubscriptionAddOn) :
  NoDup (id <$> items) -> a ∈ items ->
  filter (fun b => id b = id a) items = [a].
Proof.
  induction items as [|b items IH]; intros Hnd Hin.
  - by apply not_elem_of_nil in Hin.
  - rewrite fmap_cons in Hnd. apply NoDup_cons in Hnd as [Hb Hnd].
    rewrite filter_cons. apply elem_of_cons in Hin as [-> | Hin].
    + rewrite decide_True by done. f_equal. by apply filter_other_id.
    + rewrite decide_False; [by apply IH|].
      intros Hid. apply Hb. rewrite Hid. by apply list_elem_of_fmap_2.
Qed.

End AddOnsMore.

(** X5.  Ticking an add-on raises the total by the prices of the fetched
    add-ons with that id, counted from the total with the add-on unticked;
    when the ids of the catalog are distinct this is the price of the one
    add-on. *)
Theorem selecting_addOn_adds_its_price
    (items : list SubscriptionAddOns.SubscriptionAddOn)
    (selected : gmap string bool) (a : SubscriptionAddOns.SubscriptionAddOn) :
  NoDup (SubscriptionAddOns.id <$> items) -> a ∈ items ->
  SubscriptionAddOns.total items (<[SubscriptionAddOns.id a := true]> selected)
  = add (SubscriptionAddOns.total items
           (<[SubscriptionAddOns.id a := false]> selected))
        (priceOf a).
Proof.
  intros Hnd Hin. rewrite !total_sum, toggle_sum.
  rewrite (filter_unique_id items a Hnd Hin). f_equal.
  unfold sumNumbers. simpl. apply add_zero_r.
Qed.

Lemma selecting_addOn_adds_its_price_witness :
  NoDup (SubscriptionAddOns.id <$> addOnCatalog) /\
  addOn "ads" (Some (ofZ 250000)) ∈ addOnCatalog /\
  SubscriptionAddOns.total addOnCatalog (<["ads" := true]> {[ "seo" := true ]})
  = add (SubscriptionAddOns.total addOnCatalog (<["ads" := false]> {[ "seo" := true ]}))
        (ofZ 250000).
Proof.
  assert (Hnd : NoDup (SubscriptionAddOns.id <$> addOnCatalog)).
  { js_decide. }
  assert (Hin : addOn "ads" (Some (ofZ 250000)) ∈ addOnCatalog)
    by (apply list_elem_of_further, list_elem_of_here).
  split; [exact Hnd | split; [exact Hin|]].
  exact (selecting_addOn_adds_its_price addOnCatalog {[ "seo" := true ]}
           (addOn "ads" (Some (ofZ 250000))) Hnd Hin).
Defined.

(* ===================================================================== *)
(** ** Further properties of the admin draft *)
(* ===================================================================== *)

Section DraftMore.

Import Admin DraftSync.

Lemma ensureBucket_lookup
    (ds : gmap number WebsitePlanDurationDraft) (y y' : number) :
  ensureBucket ds y !! y' =
    match ds !! y' with
    | Some d => Some d
    | None => if bool_decide (y' = y) then Some defaultBucket else None
    end.
Proof.
  unfold ensureBucket. destruct (ds !! y) as [d|] eqn:Hy.
  - destruct (ds !! y') as [d'|] eqn:Hy'; [done|].
    rewrite bool_decide_eq_false_2; [done|]. intros ->. congruence.
  - destruct (decide (y' = y)) as [-> | Hne].
    + by rewrite lookup_insert_eq, Hy, bool_decide_eq_true_2.
    + rewrite lookup_insert_ne by done.
      destruct (ds !! y'); [done|]. by rewrite bool_decide_eq_false_2.
Qed.

Lemma ensureBuckets_lookup
    (ys : list number) (ds : gmap number WebsitePlanDurationDraft) (y' : number) :
  fold_left ensureBucket ys ds !! y' =
    match ds !! y' with
    | Some d => Some d
    | None => if bool_decide (y' ∈ ys) then Some defaultBucket else None
    end.
Proof.
  revert ds. induction ys as [|y ys IH]; intros ds.
  - cbn [fold_left]. destruct (ds !! y'); [done|].
    rewrite bool_decide_eq_false_2; [done | apply not_elem_of_nil].
  - cbn [fold_left]. rewrite IH, ensureBucket_lookup.
    destruct (ds !! y') as [d|]; [done|].
    destruct (decide (y' = y)) as [-> | Hne].
    + rewrite (bool_decide_eq_true_2 (y = y)) by done.
      rewrite (bool_decide_eq_true_2 (y ∈ y :: ys)); [done | apply list_elem_of_here].
    + rewrite (bool_decide_eq_false_2 (y' = y)) by done.
      rewrite (bool_decide_ext (y' ∈ ys) (y' ∈ y :: ys)); [done|].
      rewrite elem_of_cons. split; [by right | by intros [? | ?]].
Qed.

Lemma ensureDurations_lookup
    (ys : list number) (current : WebsitePlans) (k : WebsitePlanKey) (y : number) :
  durations (ensureDurations ys current k) !! y =
    match durations (current k) !! y with
    | Some d => Some d
    | None => if bool_decide (y ∈ ys) then Some defaultBucket else None
    end.
Proof.
  unfold ensureDurations. case_bool_decide as Hlen.
  - apply length_zero_iff_nil in Hlen. subst ys.
    destruct (durations (current k) !! y); [done|].
    rewrite bool_decide_eq_false_2; [done | apply not_elem_of_nil].
  - simpl. apply ensureBuckets_lookup.
Qed.

End DraftMore.

(** X6.  After the effect that syncs the draft with the active durations,
    every bucket that existed is unchanged, every active duration without a
    bucket has the default one (0 percent, no manual price, unlocked), no
    other bucket appears and base price and mode are untouched; so for every
    active duration the view of the bucket and the "Manual" switch are
    defined. *)
Theorem ensureDurations_completes_draft
    (ys : list number) (current : Admin.WebsitePlans)
    (k : Admin.WebsitePlanKey) (y : number) :
  Admin.durations (DraftSync.ensureDurations ys current k) !! y =
    match Admin.durations (current k) !! y with
    | Some d => Some d
    | None => if bool_decide (y ∈ ys) then Some DraftSync.defaultBucket else None
    end /\
  Admin.base_price (DraftSync.ensureDurations ys current k)
    = Admin.base_price (current k) /\
  Admin.base_mode (DraftSync.ensureDurations ys current k)
    = Admin.base_mode (current k) /\
  (y ∈ ys ->
   is_Some (Admin.durationView (DraftSync.ensureDurations ys current k) y) /\
   forall v, is_Some (Admin.onCheckedChange k y v (DraftSync.ensureDurations ys current))).
Proof.
  pose proof (ensureDurations_lookup ys current k y) as Hlook.
  split; [exact Hlook | split; [|split]].
  - unfold DraftSync.ensureDurations.
    destruct (bool_decide (length ys = 0%nat)); reflexivity.
  - unfold DraftSync.ensureDurations.
    destruct (bool_decide (length ys = 0%nat)); reflexivity.
  - intros Hy.
    assert (Hsome : is_Some (Admin.durations (DraftSync.ensureDurations ys current k) !! y)).
    { rewrite Hlook. destruct (Admin.durations (current k) !! y); [by eexists|].
      rewrite bool_decide_eq_true_2 by done. by eexists. }
    destruct Hsome as [d Hd]. split.
    + unfold Admin.durationView. rewrite Hd. by eexists.
    + intros v. unfold Admin.onCheckedChange. rewrite Hd. by eexists.
Qed.

Lemma ensureDurations_completes_draft_witness :
  ofZ 3 ∈ [ofZ 1; ofZ 2; ofZ 3] /\
  Admin.durationView (lockDemo false None Admin.website_only) (ofZ 3) = None /\
  is_Some (Admin.durationView
             (DraftSync.ensureDurations [ofZ 1; ofZ 2; ofZ 3] (lockDemo false None)
                Admin.website_only) (ofZ 3)).
Proof.
  assert (Hin : ofZ 3 ∈ [ofZ 1; ofZ 2; ofZ 3])
    by (do 2 apply list_elem_of_further; apply list_elem_of_here).
  split; [exact Hin | split; [reflexivity|]].
  exact (proj1 (proj2 (proj2 (proj2 (ensureDurations_completes_draft
           [ofZ 1; ofZ 2; ofZ 3] (lockDemo false None) Admin.website_only (ofZ 3))))
           Hin)).
Defined.

Section SwitchFrame.

Import Admin.

Lemma onCheckedChange_Some
    (k : WebsitePlanKey) (y : number) (v : bool) (prev : WebsitePlans)
    (cur : WebsitePlanDurationDraft) :
  durations (prev k) !! y = Some cur ->
  onCheckedChange k y v prev
  = Some (<[k := setDurations (prev k)
                   (<[y := switchedBucket prev k y v cur]> (durations (prev k)))]> prev).
Proof. intros Hcur. unfold onCheckedChange. by rewrite Hcur. Qed.

Lemma switched_auto
    (k : WebsitePlanKey) (y : number) (v : bool) (prev : WebsitePlans)
    (cur : WebsitePlanDurationDraft) (y' : number) :
  durations (prev k) !! y = Some cur ->
  computeAutoPricePerYear
    (setDurations (prev k)
       (<[y := switchedBucket prev k y v cur]> (durations (prev k)))) y'
  = computeAutoPricePerYear (prev k) y'.
Proof.
  intros Hcur. unfold computeAutoPricePerYear. f_equal. f_equal. f_equal. f_equal.
  f_equal. f_equal. f_equal.
  unfold discountOf. simpl.
  destruct (decide (y' = y)) as [-> | Hne].
  - by rewrite lookup_insert_eq, Hcur.
  - by rewrite lookup_insert_ne.
Qed.

End SwitchFrame.



(** X8.  Switching the lock off and on again, with nothing else in between,
    stores the current auto price as the manual price: the bucket then shows
    the auto price and the total of the unlocked bucket. *)
Theorem unlock_relock_recaptures_auto
    (k : Admin.WebsitePlanKey) (y : number) (prev : Admin.WebsitePlans)
    (cur : Admin.WebsitePlanDurationDraft) :
  Admin.durations (prev k) !! y = Some cur ->
  exists mid next,
    Admin.onCheckedChange k y false prev = Some mid /\
    Admin.onCheckedChange k y true mid = Some next /\
    Admin.durations (next k) !! y =
      Some {| Admin.discount_percent := Admin.discount_percent cur;
              Admin.manual_price_per_year :=
                Some (Admin.computeAutoPricePerYear (prev k) y);
              Admin.is_manual_locked := true |} /\
    Admin.durationView (next k) y =
      Some {| Admin.autoPricePerYear := Admin.computeAutoPricePerYear (prev k) y;
              Admin.shownPricePerYear := Admin.computeAutoPricePerYear (prev k) y;
              Admin.totalForDuration :=
                round (mul (Admin.computeAutoPricePerYear (prev k) y) y) |}.
Proof.
  intros Hcur.
  pose proof (onCheckedChange_Some k y false prev cur Hcur) as Hmid.
  set (mid := <[k := Admin.setDurations (prev k)
                 (<[y := switchedBucket prev k y false cur]>
                    (Admin.durations (prev k)))]> prev) in *.
  assert (Hmidcur : Admin.durations (mid k) !! y
                    = Some (switchedBucket prev k y false cur)).
  { subst mid. rewrite fn_lookup_insert. simpl. by rewrite lookup_insert_eq. }
  assert (Hautomid : Admin.computeAutoPricePerYear (mid k) y
                     = Admin.computeAutoPricePerYear (prev k) y).
  { subst mid. rewrite fn_lookup_insert. by apply switched_auto. }
  pose proof (onCheckedChange_Some k y true mid _ Hmidcur) as Hnext.
  set (next := <[k := _]> mid) in *.
  assert (Hnextcur : Admin.durations (next k) !! y =
            Some {| Admin.discount_percent := Admin.discount_percent cur;
                    Admin.manual_price_per_year :=
                      Some (Admin.computeAutoPricePerYear (prev k) y);
                    Admin.is_manual_locked := true |}).
  { subst next. rewrite fn_lookup_insert. simpl. rewrite lookup_insert_eq.
    unfold switchedBucket. simpl. rewrite Hautomid.
    destruct (computeAutoPricePerYear_ofZ (prev k) y) as [z ->].
    by rewrite asNumber_ofZ. }
  assert (Hautonext : Admin.computeAutoPricePerYear (next k) y
                      = Admin.computeAutoPricePerYear (prev k) y).
  { subst next. rewrite fn_lookup_insert.
    rewrite (switched_auto k y true mid _ y Hmidcur). exact Hautomid. }
  exists mid, next.
  split; [done | split; [done | split; [done|]]].
  unfold Admin.durationView. rewrite Hnextcur, Hautonext. simpl.
  destruct (computeAutoPricePerYear_ofZ (prev k) y) as [z ->].
  by rewrite asNumber_ofZ.
Qed.

Lemma unlock_relock_recaptures_auto_witness :
  exists mid next,
    Admin.onCheckedChange Admin.blog_social (ofZ 2) false
      (lockDemo true (Some (ofZ 999000))) = Some mid /\
    Admin.onCheckedChange Admin.blog_social (ofZ 2) true mid = Some next /\
    Admin.shownPricePerYear <$> Admin.durationView (next Admin.blog_social) (ofZ 2)
      = Some (ofZ 1080000).
Proof.
  destruct (unlock_relock_recaptures_auto Admin.blog_social (ofZ 2)
              (lockDemo true (Some (ofZ 999000)))
              (bucket 10 (Some (ofZ 999000)) true) eq_refl)
    as (mid & next & Hmid & Hnext & _ & Hview).
  exists mid, next. split; [exact Hmid | split; [exact Hnext|]].
  rewrite Hview. simpl. f_equal.
Defined.

(* ===================================================================== *)
(** ** Plans of the admin screen *)
(* ===================================================================== *)

Section PlanOrder.

Import Plans.

Lemma Qc_sub_le_0 (a b : Qc) : (a + - b <= 0)%Qc <-> (a <= b)%Qc.
Proof.
  rewrite (Qcle_minus_iff (a + - b) 0), (Qcle_minus_iff a b).
  by replace (0 + - (a + - b))%Qc with (b + - a)%Qc by ring.
Qed.

Lemma Qc_sub_eq_0 (a b : Qc) : (a + - b = 0)%Qc <-> a = b.
Proof.
  split.
  - intros H. replace a with ((a + - b) + b)%Qc by ring. rewrite H. ring.
  - intros ->. ring.
Qed.

Lemma gtb_zero_false (x : Qc) : gtb (Fin x) zero = false <-> (x <= 0)%Qc.
Proof.
  rewrite gtb_zero, bool_decide_eq_false.
  split; [apply Qcnot_lt_le | apply Qcle_not_lt].
Qed.

Lemma yearsOf_Fin (p : PlanRow.t) : exists q, yearsOf p = Fin q.
Proof. apply JsFacts.isFinite_Fin. by apply asNumber_isFinite. Qed.

Lemma sortOrderOf_Fin (p : PlanRow.t) : exists q, sortOrderOf p = Fin q.
Proof. apply JsFacts.isFinite_Fin. by apply asNumber_isFinite. Qed.

Lemma orElse_sub (sa sb ya yb : Qc) :
  orElse (sub (Fin sa) (Fin sb)) (sub (Fin ya) (Fin yb))
  = if decide (sa = sb) then Fin (ya + - yb)%Qc else Fin (sa + - sb)%Qc.
Proof.
  unfold orElse, sub. cbn [neg add truthy].
  destruct (decide (sa = sb)) as [-> | Hne].
  - rewrite bool_decide_eq_true_2; [done | ring].
  - rewrite bool_decide_eq_false_2; [done|]. by rewrite Qc_sub_eq_0.
Qed.

(** The comparator orders the rows by sort order, then by years. *)
Lemma planBefore_lex (a b : PlanRow.t) :
  planBefore a b <->
  ltb (sortOrderOf a) (sortOrderOf b) = true \/
  (sortOrderOf a = sortOrderOf b /\ gtb (yearsOf a) (yearsOf b) = false).
Proof.
  unfold planBefore, comparePlans.
  destruct (sortOrderOf_Fin a) as [sa ->]. destruct (sortOrderOf_Fin b) as [sb ->].
  destruct (yearsOf_Fin a) as [ya ->]. destruct (yearsOf_Fin b) as [yb ->].
  rewrite orElse_sub.
  assert (Hlt : ltb (Fin sa) (Fin sb) = true <-> (sa < sb)%Qc)
    by (unfold ltb; apply bool_decide_eq_true).
  assert (Hgt : gtb (Fin ya) (Fin yb) = false <-> (ya <= yb)%Qc).
  { unfold gtb, ltb. rewrite bool_decide_eq_false.
    split; [apply Qcnot_lt_le | apply Qcle_not_lt]. }
  rewrite Hlt, Hgt.
  destruct (decide (sa = sb)) as [-> | Hne].
  - rewrite gtb_zero_false, Qc_sub_le_0. split; [by right|].
    intros [Hbad | [_ Hy]]; [|done].
    exfalso. revert Hbad. apply Qcle_not_lt, Qcle_refl.
  - rewrite gtb_zero_false, Qc_sub_le_0. split.
    + intros Hle. left. apply Qcnot_le_lt. intros Hge. apply Hne.
      by apply Qcle_antisym.
    + intros [Hlt' | [Heq _]]; [by apply Qclt_le_weak|].
      exfalso. apply Hne. by apply JsFacts.Fin_inj.
Qed.

#[global] Instance planBefore_total : Total planBefore.
Proof.
  intros a b. rewrite !planBefore_lex.
  destruct (sortOrderOf_Fin a) as [sa Ha]. destruct (sortOrderOf_Fin b) as [sb Hb].
  destruct (yearsOf_Fin a) as [ya Hya]. destruct (yearsOf_Fin b) as [yb Hyb].
  rewrite Ha, Hb, Hya, Hyb. unfold gtb, ltb.
  destruct (Qclt_le_dec sa sb) as [Hlt | Hge].
  - left. left. by apply bool_decide_eq_true.
  - destruct (Qclt_le_dec sb sa) as [Hlt' | Hge'].
    + right. left. by apply bool_decide_eq_true.
    + assert (sa = sb) as -> by by apply Qcle_antisym.
      destruct (Qclt_le_dec yb ya) as [Hy | Hy].
      * right. right. split; [done|]. apply bool_decide_eq_false.
        by apply Qcle_not_lt, Qclt_le_weak.
      * left. right. split; [done|]. apply bool_decide_eq_false.
        by apply Qcle_not_lt.
Qed.

End PlanOrder.

(** X9.  The active durations are the years of the plans that are active and
    have positive years, each one finite and positive, one per such plan,
    listed in the order of sort order and then years. *)
Theorem activeDurationYears_sorted_active (plans : list PlanRow.t) :
  (forall y, y ∈ Plans.activeDurationYears plans <->
             exists p, p ∈ plans /\ PlanRow.is_active p = true /\
                       Plans.yearsOf p = y /\ gtb y zero = true) /\
  (forall y, y ∈ Plans.activeDurationYears plans ->
             exists q : Qc, y = Fin q /\ (0 < q)%Qc) /\
  (exists sorted,
      Plans.activeDurationYears plans = Plans.yearsOf <$> sorted /\
      sorted ≡ₚ filter (fun p => Plans.isActivePlan p = true) plans /\
      Sorted Plans.planBefore sorted) /\
  (forall a b, Plans.planBefore a b <->
     ltb (Plans.sortOrderOf a) (Plans.sortOrderOf b) = true \/
     (Plans.sortOrderOf a = Plans.sortOrderOf b /\
      gtb (Plans.yearsOf a) (Plans.yearsOf b) = false)) /\
  (length (Plans.activeDurationYears plans) <= length plans)%nat.
Proof.
  assert (Hmem : forall y, y ∈ Plans.activeDurationYears plans <->
             exists p, p ∈ plans /\ PlanRow.is_active p = true /\
                       Plans.yearsOf p = y /\ gtb y zero = true).
  { intros y. unfold Plans.activeDurationYears.
    rewrite list_elem_of_fmap. split.
    - intros (p & -> & Hp). rewrite merge_sort_Permutation in Hp.
      apply list_elem_of_filter in Hp as [Hact Hp].
      unfold Plans.isActivePlan in Hact. apply andb_true_iff in Hact as [? ?].
      by exists p.
    - intros (p & Hp & Hact & <- & Hpos). exists p. split; [done|].
      rewrite merge_sort_Permutation. apply list_elem_of_filter. split; [|done].
      unfold Plans.isActivePlan. by rewrite Hact, Hpos. }
  split; [exact Hmem | split; [|split; [|split]]].
  - intros y (p & _ & _ & <- & Hpos)%Hmem.
    destruct (yearsOf_Fin p) as [q Hq]. rewrite Hq in Hpos |- *.
    rewrite gtb_zero in Hpos. apply bool_decide_eq_true in Hpos. by exists q.
  - eexists. split; [reflexivity|].
    split; [apply merge_sort_Permutation | apply Sorted_merge_sort, _].
  - apply planBefore_lex.
  - unfold Plans.activeDurationYears.
    rewrite length_fmap, merge_sort_Permutation. apply length_filter.
Qed.

Lemma activeDurationYears_sorted_active_witness :
  Plans.activeDurationYears
    [planRow 3 (ofZ 700) true; planRow 2 (ofZ 500) false;
     planRow 1 (ofZ 200) true; planRow 0 (ofZ 100) true]
  = [ofZ 1; ofZ 3] /\
  exists q : Qc, ofZ 3 = Fin q /\ (0 < q)%Qc.
Proof.
  assert (Hlist : Plans.activeDurationYears
            [planRow 3 (ofZ 700) true; planRow 2 (ofZ 500) false;
             planRow 1 (ofZ 200) true; planRow 0 (ofZ 100) true]
          = [ofZ 1; ofZ 3]) by js_decide.
  split; [exact Hlist|].
  apply (proj1 (proj2 (activeDurationYears_sorted_active
           [planRow 3 (ofZ 700) true; planRow 2 (ofZ 500) false;
            planRow 1 (ofZ 200) true; planRow 0 (ofZ 100) true]))).
  rewrite Hlist. apply list_elem_of_further, list_elem_of_here.
Defined.

Section AddPlan.

Import Plans.

Lemma fold_max_Fin (l : list number) (a : Qc) :
  (forall x, x ∈ l -> isFinite x = true) ->
  exists m : Qc, fold_left max l (Fin a) = Fin m /\ (a <= m)%Qc /\
                 forall q, Fin q ∈ l -> (q <= m)%Qc.
Proof.
  revert a. induction l as [|x l IH]; intros a Hfin.
  - exists a. split; [done | split; [apply Qcle_refl|]].
    intros q Hq. by apply not_elem_of_nil in Hq.
  - destruct (proj1 (JsFacts.isFinite_Fin x) (Hfin x (list_elem_of_here _ _)))
      as [q ->].
    assert (Hmax : exists b : Qc, max (Fin a) (Fin q) = Fin b /\
                                  (a <= b)%Qc /\ (q <= b)%Qc).
    { unfold max, ltb. case_bool_decide as Hlt.
      - exists q. split; [done | split; [by apply Qclt_le_weak | apply Qcle_refl]].
      - exists a. split; [done | split; [apply Qcle_refl | by apply Qcnot_lt_le]]. }
    destruct Hmax as (b & Hb & Hab & Hqb).
    destruct (IH b) as (m & Hm & Hbm & Hall).
    { intros x Hx. apply Hfin. by apply list_elem_of_further. }
    exists m. cbn [fold_left]. rewrite Hb. split; [done|]. split.
    + by eapply Qcle_trans.
    + intros q' Hq'. apply elem_of_cons in Hq' as [Heq | Hq']; [|by apply Hall].
      apply JsFacts.Fin_inj in Heq. subst q'. by eapply Qcle_trans.
Qed.

Lemma mathMax_Fin (l : list number) :
  l <> [] -> (forall x, x ∈ l -> isFinite x = true) ->
  exists m : Qc, mathMax l = Fin m /\ forall q, Fin q ∈ l -> (q <= m)%Qc.
Proof.
  intros Hne Hfin. destruct l as [|x l]; [done|].
  destruct (proj1 (JsFacts.isFinite_Fin x) (Hfin x (list_elem_of_here _ _)))
    as [q ->].
  destruct (fold_max_Fin l q) as (m & Hm & Hqm & Hall).
  { intros x Hx. apply Hfin. by apply list_elem_of_further. }
  exists m. unfold mathMax. cbn [fold_left].
  change (max NInf (Fin q)) with (Fin q). split; [done|].
  intros q' Hq'. apply elem_of_cons in Hq' as [Heq | Hq']; [|by apply Hall].
  apply JsFacts.Fin_inj in Heq. by subst q'.
Qed.

Lemma Qc_lt_succ (q m : Qc) : (q <= m)%Qc -> (q < m + Qc_of_Z 1)%Qc.
Proof.
  intros Hle. eapply Qcle_lt_trans; [exact Hle|].
  rewrite <- (Qcplus_0_r m) at 1. apply Qcplus_lt_mono_l. js_decide.
Qed.

End AddPlan.

(** X10.  "Add Plan" appends one active plan of 1 year at price 0.  When the
    sort orders of the existing plans are finite, its sort order is greater
    than each of them, so the comparator of the active durations places it
    after every existing plan; on an empty list its sort order is 1. *)
Theorem addPlan_sorts_last (prev : list PlanRow.t) :
  (forall p, p ∈ prev -> isFinite (PlanRow.sort_order p) = true) ->
  exists new,
    Plans.addPlan prev = prev ++ [new] /\
    PlanRow.years new = ofZ 1 /\ PlanRow.is_active new = true /\
    PlanRow.price_usd new = zero /\
    (prev = [] -> PlanRow.sort_order new = ofZ 1) /\
    (forall p, p ∈ prev ->
       ltb (PlanRow.sort_order p) (PlanRow.sort_order new) = true /\
       Plans.planBefore p new /\ ~ Plans.planBefore new p).
Proof.
  intros Hfin. eexists. split; [reflexivity|].
  split; [done | split; [done | split; [done | split]]].
  - intros ->. reflexivity.
  - intros p Hp. cbn [PlanRow.sort_order].
    assert (Hne : PlanRow.sort_order <$> prev <> [])
      by (destruct prev; [by apply not_elem_of_nil in Hp | done]).
    rewrite bool_decide_eq_false_2
      by (destruct prev; [by apply not_elem_of_nil in Hp | done]).
    destruct (mathMax_Fin (PlanRow.sort_order <$> prev) Hne) as (m & Hm & Hall).
    { intros x (p' & -> & Hp')%list_elem_of_fmap. by apply Hfin. }
    rewrite Hm.
    destruct (proj1 (JsFacts.isFinite_Fin _) (Hfin p Hp)) as [q Hq].
    assert (Hlt : (q < m + Qc_of_Z 1)%Qc).
    { apply Qc_lt_succ, Hall. rewrite <- Hq. by apply list_elem_of_fmap_2. }
    assert (Hltb : ltb (PlanRow.sort_order p) (add (Fin m) (ofZ 1)) = true).
    { rewrite Hq. unfold ltb. cbn [add ofZ]. by apply bool_decide_eq_true. }
    split; [exact Hltb|].
    rewrite !planBefore_lex. unfold Plans.sortOrderOf. cbn [PlanRow.sort_order].
    rewrite Hq. change (add (Fin m) (ofZ 1)) with (Fin (m + Qc_of_Z 1)%Qc).
    rewrite !asNumber_finite. split.
    + left. unfold ltb. by apply bool_decide_eq_true.
    + intros [Hbad | [Heq _]].
      * unfold ltb in Hbad. apply bool_decide_eq_true in Hbad.
        revert Hbad. by apply Qcle_not_lt, Qclt_le_weak.
      * apply JsFacts.Fin_inj in Heq. rewrite Heq in Hlt.
        revert Hlt. apply Qcle_not_lt, Qcle_refl.
Qed.

Lemma addPlan_sorts_last_witness :
  (forall p, p ∈ [planRow 1 (ofZ 200) true; planRow 3 (ofZ 700) true] ->
             isFinite (PlanRow.sort_order p) = true) /\
  PlanRow.sort_order <$>
    last (Plans.addPlan [planRow 1 (ofZ 200) true; planRow 3 (ofZ 700) true])
  = Some (ofZ 4) /\
  exists new,
    Plans.addPlan [planRow 1 (ofZ 200) true; planRow 3 (ofZ 700) true]
    = [planRow 1 (ofZ 200) true; planRow 3 (ofZ 700) true] ++ [new] /\
    PlanRow.years new = ofZ 1.
Proof.
  assert (Hfin : forall p, p ∈ [planRow 1 (ofZ 200) true; planRow 3 (ofZ 700) true] ->
                           isFinite (PlanRow.sort_order p) = true).
  { intros p Hp. apply elem_of_cons in Hp as [-> | Hp]; [done|].
    by apply list_elem_of_singleton in Hp as ->. }
  split; [exact Hfin | split; [js_decide|]].
  destruct (addPlan_sorts_last _ Hfin) as (new & Hnew & Hyears & _).
  by exists new.
Defined.

(* ===================================================================== *)
(** ** Loading and saving the plans *)
(* ===================================================================== *)

Section PlansIO.

Import Plans.

Variable trim : string -> string.
Variable numberToString : number -> string.

Lemma append_nonempty_r (s1 s2 : string) : s2 <> "" -> s1 +:+ s2 <> "".
Proof. destruct s1; [done|]. by intros _. Qed.

Lemma defaultLabel_nonempty (y : number) : defaultLabel numberToString y <> "".
Proof. unfold defaultLabel. apply append_nonempty_r. by destruct (gtb y (ofZ 1)). Qed.

Lemma positive_years (y : number) :
  isFinite y = true -> gtb y zero = true -> exists q : Qc, y = Fin q /\ (0 < q)%Qc.
Proof.
  intros [q ->]%JsFacts.isFinite_Fin Hpos. rewrite gtb_zero in Hpos.
  apply bool_decide_eq_true in Hpos. by exists q.
Qed.

Lemma orElse_truthy (a b : number) :
  truthy b = true -> truthy (orElse a b) = true.
Proof. intros Hb. unfold orElse. by destruct (truthy a) eqn:Ha. Qed.

Lemma orElse_isFinite (a b : number) :
  isFinite a = true -> isFinite b = true -> isFinite (orElse a b) = true.
Proof. intros Ha Hb. unfold orElse. by destruct (truthy a). Qed.

Lemma truthy_positive (q : Qc) : (0 < q)%Qc -> truthy (Fin q) = true.
Proof.
  intros Hq. simpl. apply negb_true_iff, bool_decide_eq_false.
  intros ->. revert Hq. apply Qcle_not_lt, Qcle_refl.
Qed.

Lemma completePlan_wellFormed (p : PlanRow.t) :
  gtb (PlanRow.years p) zero = true ->
  isFinite (PlanRow.years p) = true ->
  isFinite (PlanRow.price_usd p) = true ->
  isFinite (PlanRow.sort_order p) = true ->
  wellFormedPlan (completePlan numberToString p) /\
  truthy (PlanRow.sort_order (completePlan numberToString p)) = true.
Proof.
  intros Hpos Hy Hprice Hsort.
  destruct (positive_years _ Hy Hpos) as (q & Hq & Hq0).
  split; [split; [|split; [|split]]|]; cbn.
  - by exists q.
  - done.
  - apply orElse_isFinite; [done | by rewrite Hq].
  - case_bool_decide; [apply defaultLabel_nonempty | done].
  - apply orElse_truthy. rewrite Hq. by apply truthy_positive.
Qed.

Lemma parsePlan_finite (r : RawPlan.t) :
  isFinite (PlanRow.years (parsePlan trim r)) = true /\
  isFinite (PlanRow.price_usd (parsePlan trim r)) = true /\
  isFinite (PlanRow.sort_order (parsePlan trim r)) = true.
Proof. repeat split; by apply asNumber_isFinite. Qed.


End PlansIO.

(** X11.  Whatever the stored value is, the plans that [fetchPlans] puts in
    the form are never empty (the three default plans stand in for an empty
    or malformed value), and each has finite positive years, a finite price,
    a finite sort order that is not 0 and a label that is not empty. *)
Theorem fetchPlans_wellFormed
    (trim : string -> string) (numberToString : number -> string)
    (v : option (list RawPlan.t)) :
  Plans.fetchPlans trim numberToString v <> [] /\
  Forall (fun p => wellFormedPlan p /\ truthy (PlanRow.sort_order p) = true)
    (Plans.fetchPlans trim numberToString v).
Proof.
  unfold Plans.fetchPlans.
  set (parsed := match v with Some rows => _ | None => [] end).
  case_bool_decide as Hlen.
  - split; [done|]. unfold Plans.defaultPlans.
    assert (Hdef : forall (z : Z) (l : string),
              (0 < z)%Z -> l <> "" ->
              wellFormedPlan {| PlanRow.years := ofZ z; PlanRow.label := l;
                                PlanRow.price_usd := zero; PlanRow.is_active := true;
                                PlanRow.sort_order := ofZ z |} /\
              truthy (ofZ z) = true).
    { intros z l Hz Hl.
      assert (Hq : (0 < Qc_of_Z z)%Qc)
        by (rewrite <- Z2Qc_inj_0; by apply (proj1 (Z2Qc_inj_lt 0 z))).
      split; [|by apply truthy_positive].
      split; [by exists (Qc_of_Z z) | done]. }
    repeat apply List.Forall_cons; [by apply Hdef..|apply List.Forall_nil].
  - split.
    + destruct parsed; [done | by rewrite fmap_cons].
    + apply list.Forall_forall. intros p (p0 & -> & Hp0)%list_elem_of_fmap.
      assert (Hp : gtb (PlanRow.years p0) zero = true /\
                   exists r, p0 = Plans.parsePlan trim r).
      { subst parsed. destruct v as [rows|]; [|by apply not_elem_of_nil in Hp0].
        apply list_elem_of_filter in Hp0 as [Hpos Hin].
        apply list_elem_of_fmap in Hin as (r & -> & _). eauto. }
      destruct Hp as [Hpos [r ->]].
      destruct (parsePlan_finite trim r) as (Hy & Hprice & Hsort).
      by apply completePlan_wellFormed.
Qed.

Lemma savePlans_rows_wellFormed
    (trim : string -> string) (numberToString : number -> string)
    (plans : list PlanRow.t) :
  Forall wellFormedPlan (Plans.savePlans trim numberToString plans).
Proof.
  unfold Plans.savePlans.
  apply list.Forall_forall. intros p Hp.
  apply list_elem_of_filter in Hp as [Hpos Hin].
  apply list_elem_of_fmap in Hin as (p0 & -> & _).
  assert (Hy : isFinite (Plans.yearsOf p0) = true) by by apply asNumber_isFinite.
  split; [|split; [|split]]; cbn in *.
  - by apply positive_years.
  - by apply asNumber_isFinite.
  - by apply asNumber_isFinite.
  - case_bool_decide; [apply defaultLabel_nonempty | done].
Qed.

(** X12.  The payload of [savePlans] keeps the plans in order and drops
    exactly those whose years are not positive; every row sent has finite
    positive years, a finite price, a finite sort order and a label that is
    not empty. *)
Theorem savePlans_wellFormed
    (trim : string -> string) (numberToString : number -> string)
    (plans : list PlanRow.t) :
  Forall wellFormedPlan (Plans.savePlans trim numberToString plans) /\
  PlanRow.years <$> Plans.savePlans trim numberToString plans
  = filter (fun y => gtb y zero = true) (Plans.yearsOf <$> plans) /\
  (forall p, p ∈ plans -> gtb (Plans.yearsOf p) zero = true ->
             Plans.payloadPlan trim numberToString p
             ∈ Plans.savePlans trim numberToString plans).
Proof.
  split; [apply savePlans_rows_wellFormed | unfold Plans.savePlans; split].
  - induction plans as [|p plans IH]; [done|].
    rewrite !fmap_cons, !filter_cons. cbn [PlanRow.years Plans.payloadPlan].
    destruct (decide (gtb (Plans.yearsOf p) zero = true)); [|exact IH].
    by rewrite fmap_cons, IH.
  - intros p Hp Hpos. apply list_elem_of_filter. split; [done|].
    by apply list_elem_of_fmap_2.
Qed.

Lemma savePlans_wellFormed_witness :
  planRow 2 (ofZ 500) false ∈ [planRow 0 (ofZ 100) true; planRow 2 (ofZ 500) false] /\
  gtb (Plans.yearsOf (planRow 2 (ofZ 500) false)) zero = true /\
  Plans.payloadPlan (fun s => s) (fun _ => "2") (planRow 2 (ofZ 500) false)
  ∈ Plans.savePlans (fun s => s) (fun _ => "2")
      [planRow 0 (ofZ 100) true; planRow 2 (ofZ 500) false].
Proof.
  assert (Hin : planRow 2 (ofZ 500) false
                ∈ [planRow 0 (ofZ 100) true; planRow 2 (ofZ 500) false])
    by (apply list_elem_of_further, list_elem_of_here).
  split; [exact Hin | split; [reflexivity|]].
  exact (proj2 (proj2 (savePlans_wellFormed (fun s => s) (fun _ => "2")
                  [planRow 0 (ofZ 100) true; planRow 2 (ofZ 500) false]))
           _ Hin eq_refl).
Defined.

Section PlansRoundTrip.

Import Plans.

Variable trim : string -> string.
Variable numberToString : number -> string.




End PlansRoundTrip.



(* ===================================================================== *)
(** ** Saving the add-ons *)
(* ===================================================================== *)

Section SaveAddOns.

Import AddOnsAdmin.

Variable trim : string -> string.

Lemma find_blank_label (l : list AddOnPayload.t) :
  find (fun p => bool_decide (AddOnPayload.label p = "")) l = None <->
  Forall (fun p => AddOnPayload.label p <> "") l.
Proof.
  induction l as [|p l IH]; simpl; [by split|].
  case_bool_decide as Hp.
  - split; [done|]. intros Hall. by apply Forall_cons_1 in Hall as [? _].
  - rewrite IH. split; [by constructor|]. intros Hall. by apply Forall_cons_1 in Hall as [_ ?].
Qed.

Lemma partition_by_id (l : list AddOnPayload.t) :
  filter (fun r => truthyString (AddOnPayload.id r) = false) l ++
  filter (fun r => truthyString (AddOnPayload.id r) = true) l ≡ₚ l.
Proof.
  induction l as [|r l IH]; [done|].
  rewrite !filter_cons. destruct (truthyString (AddOnPayload.id r)) eqn:Hid.
  - rewrite decide_False, decide_True by done.
    rewrite <- Permutation_middle. by constructor.
  - rewrite decide_True, decide_False by done. simpl. by constructor.
Qed.

Lemma normalizeAddOn_id (i : nat) (a : AddOnRow.t) :
  truthyString (AddOnPayload.id (normalizeAddOn trim i a)) = false ->
  AddOnPayload.id (normalizeAddOn trim i a) = None.
Proof.
  cbn. destruct (truthyString (AddOnRow.id a)) eqn:Hid; [|done]. by rewrite Hid.
Qed.

Lemma normalizeAddOn_price (i : nat) (a : AddOnRow.t) :
  exists z, (0 <= z)%Z /\ AddOnPayload.price_idr (normalizeAddOn trim i a) = ofZ z.
Proof. apply flooredBase_ofZ. Qed.

End SaveAddOns.

(** X14.  [saveAddOns] stops exactly when some label is blank after trimming.
    Otherwise every row of the form goes to exactly one of the two requests
    (rows without an id are inserted, rows with an id upserted), each with a
    label that is not blank, a whole price that is not negative and its
    position in the form as sort order. *)
Theorem saveAddOns_requests (trim : string -> string) (addOns : list AddOnRow.t) :
  (AddOnsAdmin.saveAddOns trim addOns = None <->
   exists a, a ∈ addOns /\ trim (AddOnRow.label a) = "") /\
  (forall toInsert toUpsert,
     AddOnsAdmin.saveAddOns trim addOns = Some (toInsert, toUpsert) ->
     toInsert ++ toUpsert ≡ₚ imap (AddOnsAdmin.normalizeAddOn trim) addOns /\
     (length toInsert + length toUpsert = length addOns)%nat /\
     Forall (fun r => AddOnPayload.id r = None) toInsert /\
     Forall (fun r => AddOnsAdmin.truthyString (AddOnPayload.id r) = true) toUpsert /\
     Forall (fun r =>
               AddOnPayload.label r <> "" /\
               (exists z, (0 <= z)%Z /\ AddOnPayload.price_idr r = ofZ z) /\
               exists i a, addOns !! i = Some a /\
                           r = AddOnsAdmin.normalizeAddOn trim i a /\
                           AddOnPayload.sort_order r = ofZ (Z.of_nat i))
       (toInsert ++ toUpsert)).
Proof.
  unfold AddOnsAdmin.saveAddOns.
  set (normalized := imap (AddOnsAdmin.normalizeAddOn trim) addOns).
  destruct (find _ normalized) as [bad|] eqn:Hfind.
  - split; [|done]. split; [intros _|done].
    apply find_some in Hfind as [Hin Hblank].
    apply list_elem_of_In in Hin. subst normalized.
    apply elem_of_lookup_imap in Hin as (i & a & -> & Ha).
    apply bool_decide_eq_true in Hblank. exists a. split; [|done].
    by eapply list_elem_of_lookup_2.
  - apply find_blank_label in Hfind. split.
    + split; [done|]. intros (a & Ha & Hblank). exfalso.
      apply list_elem_of_lookup in Ha as [i Ha].
      rewrite list.Forall_forall in Hfind.
      apply (Hfind (AddOnsAdmin.normalizeAddOn trim i a)); [|done].
      subst normalized. by apply elem_of_lookup_imap_2.
    + intros toInsert toUpsert [= <- <-].
      pose proof (partition_by_id normalized) as Hperm.
      split; [exact Hperm | split; [|split; [|split]]].
      * rewrite <- length_app, Hperm. subst normalized. apply length_imap.
      * apply list.Forall_forall. intros r [Hid Hr]%list_elem_of_filter.
        subst normalized. apply elem_of_lookup_imap in Hr as (i & a & -> & _).
        by apply normalizeAddOn_id.
      * apply list.Forall_forall. by intros r [Hid _]%list_elem_of_filter.
      * rewrite Hperm. apply list.Forall_forall. intros r Hr.
        split; [by apply (proj1 (list.Forall_forall _ _) Hfind)|].
        subst normalized. apply elem_of_lookup_imap in Hr as (i & a & -> & Ha).
        split; [apply normalizeAddOn_price | by exists i, a].
Qed.

Lemma saveAddOns_requests_witness :
  exists toInsert toUpsert,
    AddOnsAdmin.saveAddOns (fun s => s) addOnForm = Some (toInsert, toUpsert) /\
    (length toInsert + length toUpsert = length addOnForm)%nat /\
    Forall (fun r => AddOnPayload.id r = None) toInsert.
Proof.
  destruct (AddOnsAdmin.saveAddOns (fun s => s) addOnForm) as [[ins ups]|] eqn:Hsave;
    [|by vm_compute in Hsave].
  exists ins, ups. split; [done|].
  destruct (proj2 (saveAddOns_requests (fun s => s) addOnForm) ins ups Hsave)
    as (_ & Hlen & Hins & _).
  by split.
Defined.

(* ===================================================================== *)
(** ** Domain pricing *)
(* ===================================================================== *)

Section DomainPricingFacts.

Import DomainPricing.

Lemma replaceDots_no_dot (s : string) : ChooseDomain.includesDot (replaceDots s) = false.
Proof.
  induction s as [|c s IH]; [done|].
  cbn [replaceDots ChooseDomain.includesDot]. rewrite IH, orb_false_r.
  destruct (decide (c = "."%char)) as [-> | Hc].
  - reflexivity.
  - rewrite (bool_decide_eq_false_2 (c = "."%char)) by done.
    by apply bool_decide_eq_false_2.
Qed.

Lemma mapSet_keys (k : string) (v : number) (m : list (string * number)) :
  (mapSet k v m).*1 = if bool_decide (k ∈ m.*1) then m.*1 else m.*1 ++ [k].
Proof.
  induction m as [|[k' v'] m IH]; [done|]. cbn [mapSet].
  destruct (decide (k = k')) as [<- | Hk].
  - rewrite (bool_decide_eq_true_2 (k = k)) by done.
    rewrite bool_decide_eq_true_2; [done | apply list_elem_of_here].
  - rewrite (bool_decide_eq_false_2 (k = k')) by done.
    rewrite !fmap_cons, IH. cbn [fst].
    destruct (decide (k ∈ m.*1)) as [Hin | Hin].
    + rewrite (bool_decide_eq_true_2 (k ∈ m.*1)) by done.
      rewrite bool_decide_eq_true_2; [done | by apply list_elem_of_further].
    + rewrite (bool_decide_eq_false_2 (k ∈ m.*1)) by done.
      rewrite bool_decide_eq_false_2; [done|].
      intros [? | ?]%elem_of_cons; done.
Qed.

Lemma mapSet_NoDup (k : string) (v : number) (m : list (string * number)) :
  NoDup m.*1 -> NoDup (mapSet k v m).*1.
Proof.
  intros Hnd. rewrite mapSet_keys. case_bool_decide as Hin; [done|].
  apply NoDup_app. split; [done|]. split; [|apply NoDup_singleton].
  intros x Hx ->%list_elem_of_singleton. done.
Qed.

Lemma mapSet_elem (k : string) (v : number) (m : list (string * number)) :
  (k, v) ∈ mapSet k v m.
Proof.
  induction m as [|[k' v'] m IH]; simpl; [apply list_elem_of_here|].
  case_bool_decide; [apply list_elem_of_here | by apply list_elem_of_further].
Qed.

Lemma mapSet_other (k k' : string) (v v' : number) (m : list (string * number)) :
  k' <> k -> (k', v') ∈ mapSet k v m <-> (k', v') ∈ m.
Proof.
  intros Hne. induction m as [|[k0 v0] m IH]; simpl.
  - rewrite list_elem_of_singleton. split; [intros [= ? ?]; done|].
    by intros ?%not_elem_of_nil.
  - case_bool_decide as Hk.
    + subst k0. rewrite !elem_of_cons. split; intros [[= ? ?] | ?]; try done; by right.
    + rewrite !elem_of_cons, IH. done.
Qed.

Lemma mapSet_values (k : string) (v : number) (m : list (string * number))
    (e : string * number) :
  e ∈ mapSet k v m -> e = (k, v) \/ e ∈ m.
Proof.
  induction m as [|[k0 v0] m IH]; simpl.
  - intros ->%list_elem_of_singleton. by left.
  - case_bool_decide as Hk.
    + intros [-> | He]%elem_of_cons; [by left | right; by apply list_elem_of_further].
    + intros [-> | He]%elem_of_cons; [right; apply list_elem_of_here|].
      destruct (IH He) as [-> | ?]; [by left | right; by apply list_elem_of_further].
Qed.

Lemma setAll_NoDup (rows : list TldPriceRow.t) (m : list (string * number)) :
  NoDup m.*1 -> NoDup (setAll rows m).*1.
Proof.
  revert m. induction rows as [|r rows IH]; intros m Hnd; [done|].
  simpl. apply IH. by apply mapSet_NoDup.
Qed.

Lemma setAll_keeps (rows : list TldPriceRow.t) (m : list (string * number))
    (k : string) (v : number) :
  (forall r, r ∈ rows -> TldPriceRow.tld r <> k) ->
  (k, v) ∈ m -> (k, v) ∈ setAll rows m.
Proof.
  revert m. induction rows as [|r rows IH]; intros m Hno Hin; [done|].
  simpl. apply IH.
  - intros r' Hr'. apply Hno. by apply list_elem_of_further.
  - apply mapSet_other; [|done]. intros Heq.
    by apply (Hno r (list_elem_of_here _ _)).
Qed.

Lemma setAll_values (rows : list TldPriceRow.t) (m : list (string * number))
    (e : string * number) :
  e ∈ setAll rows m ->
  e ∈ m \/ exists r, r ∈ rows /\ e = (TldPriceRow.tld r, TldPriceRow.price_usd r).
Proof.
  revert m. induction rows as [|r rows IH]; intros m He; [by left|].
  simpl in He. apply IH in He as [He | (r' & Hr' & ->)].
  - apply mapSet_values in He as [-> | He]; [|by left].
    right. exists r. split; [apply list_elem_of_here | done].
  - right. exists r'. split; [by apply list_elem_of_further | done].
Qed.

Section Cleaned.

Variable trim : string -> string.
Variable toLowerCase : string -> string.

Lemma normalizeTld_no_dot (input : option string) :
  ChooseDomain.includesDot (normalizeTld trim toLowerCase input) = false.
Proof. apply replaceDots_no_dot. Qed.

Lemma geb_zero_nonneg (q : Qc) : geb (Fin q) zero = true -> (0 <= q)%Qc.
Proof.
  unfold geb. intros [Hlt | Heq]%orb_true_iff.
  - change (ltb zero (Fin q)) with (gtb (Fin q) zero) in Hlt.
    rewrite gtb_zero in Hlt. apply bool_decide_eq_true in Hlt.
    by apply Qclt_le_weak.
  - unfold strictEq in Heq. apply bool_decide_eq_true in Heq.
    apply JsFacts.Fin_inj in Heq. rewrite Heq, Z2Qc_inj_0. apply Qcle_refl.
Qed.

Lemma cleaned_rows (tldPrices : list TldPriceRow.t) (r : TldPriceRow.t) :
  r ∈ cleanedTldPrices trim toLowerCase tldPrices ->
  cleanRow (TldPriceRow.tld r) (TldPriceRow.price_usd r).
Proof.
  unfold cleanedTldPrices. intros [[Htld Hprice] Hin]%list_elem_of_filter.
  apply list_elem_of_fmap in Hin as (r0 & -> & _). cbn in *.
  apply andb_true_iff in Hprice as [Hfin Hge].
  apply JsFacts.isFinite_Fin in Hfin as [q Hq].
  split; [done | split; [apply normalizeTld_no_dot|]].
  exists q. split; [done|]. apply geb_zero_nonneg. by rewrite <- Hq.
Qed.

End Cleaned.

End DomainPricingFacts.

(** X15.  A normalized TLD never contains a dot, and the rows that
    [fetchDomainPricing] puts in the form are never empty: each has a TLD
    that is not empty and has no dot, and a finite price; an empty or
    unusable answer gives the four default rows. *)
Theorem fetchedTldPrices_wellFormed
    (trim toLowerCase : string -> string) (priceRows : option (list RawTldPrice.t)) :
  (forall input,
      ChooseDomain.includesDot (DomainPricing.normalizeTld trim toLowerCase input)
      = false) /\
  DomainPricing.fetchedTldPrices trim toLowerCase priceRows <> [] /\
  Forall (fun r => TldPriceRow.tld r <> "" /\
                   ChooseDomain.includesDot (TldPriceRow.tld r) = false /\
                   isFinite (TldPriceRow.price_usd r) = true)
    (DomainPricing.fetchedTldPrices trim toLowerCase priceRows) /\
  DomainPricing.fetchedTldPrices trim toLowerCase None = DomainPricing.defaultTldRows /\
  DomainPricing.fetchedTldPrices trim toLowerCase (Some [])
  = DomainPricing.defaultTldRows.
Proof.
  split; [apply normalizeTld_no_dot | split; [|split; [|by split]]].
  - unfold DomainPricing.fetchedTldPrices. case_bool_decide as Hlen; [done|].
    intros Hnil. by rewrite Hnil in Hlen.
  - unfold DomainPricing.fetchedTldPrices. case_bool_decide as Hlen.
    + unfold DomainPricing.defaultTldRows. by repeat constructor.
    + apply list.Forall_forall. intros r [Htld Hin]%list_elem_of_filter.
      apply list_elem_of_fmap in Hin as (r0 & -> & _). cbn in *.
      split; [done | split; [apply normalizeTld_no_dot|]].
      by apply (asNumber_isFinite _ zero).
Qed.

(** X16.  The TLD prices that [saveDomainPricing] sends have distinct TLDs;
    each TLD is not empty and has no dot and each price is finite and not
    negative; every row sent comes from a cleaned row, and for a TLD that
    occurs several times the price of its last cleaned row is the one sent.
    The request is only made for a package id, not empty, that is among the
    packages. *)
Theorem dedupedTldPrices_last_wins
    (trim toLowerCase : string -> string) (tldPrices : list TldPriceRow.t) :
  NoDup (TldPriceRow.tld <$> DomainPricing.dedupedTldPrices trim toLowerCase tldPrices) /\
  Forall (fun r => cleanRow (TldPriceRow.tld r) (TldPriceRow.price_usd r) /\
                   r ∈ DomainPricing.cleanedTldPrices trim toLowerCase tldPrices)
    (DomainPricing.dedupedTldPrices trim toLowerCase tldPrices) /\
  (forall before r after,
      DomainPricing.cleanedTldPrices trim toLowerCase tldPrices = before ++ r :: after ->
      (forall r', r' ∈ after -> TldPriceRow.tld r' <> TldPriceRow.tld r) ->
      r ∈ DomainPricing.dedupedTldPrices trim toLowerCase tldPrices) /\
  (forall pricingPackageId packages pkgId rows,
      DomainPricing.saveDomainPricing trim toLowerCase pricingPackageId packages tldPrices
      = Some (pkgId, rows) ->
      pkgId <> "" /\ pkgId ∈ packages /\
      rows = DomainPricing.dedupedTldPrices trim toLowerCase tldPrices).
Proof.
  unfold DomainPricing.dedupedTldPrices, DomainPricing.dedupedMap.
  fold (setAll (DomainPricing.cleanedTldPrices trim toLowerCase tldPrices) []).
  set (cleaned := DomainPricing.cleanedTldPrices trim toLowerCase tldPrices).
  split; [|split; [|split]].
  - rewrite <- list_fmap_compose.
    change (TldPriceRow.tld ∘ _) with (@fst string number).
    apply setAll_NoDup. constructor.
  - apply list.Forall_forall. intros r (e & -> & He)%list_elem_of_fmap.
    apply setAll_values in He as [He | (r0 & Hr0 & ->)];
      [by apply not_elem_of_nil in He|].
    cbn. split; [by apply (cleaned_rows trim toLowerCase tldPrices)|].
    by destruct r0.
  - intros before r after Hcleaned Hafter. rewrite Hcleaned.
    unfold setAll. rewrite fold_left_app. cbn [fold_left].
    apply list_elem_of_fmap.
    exists (TldPriceRow.tld r, TldPriceRow.price_usd r). split; [by destruct r|].
    apply setAll_keeps; [done | apply mapSet_elem].
  - intros pricingPackageId packages pkgId rows.
    unfold DomainPricing.saveDomainPricing.
    set (pkg := if bool_decide (trim pricingPackageId = "") then _ else _).
    destruct (negb (bool_decide (pkg = "")) && bool_decide (pkg ∈ packages)) eqn:Hok;
      [|done].
    intros [= <- <-]. apply andb_true_iff in Hok as [Hne Hin].
    apply negb_true_iff, bool_decide_eq_false in Hne.
    apply bool_decide_eq_true in Hin. done.
Qed.

Lemma dedupedTldPrices_last_wins_witness :
  DomainPricing.cleanedTldPrices (fun s => s) (fun s => s) tldForm
  = [ {| TldPriceRow.tld := "com"; TldPriceRow.price_usd := ofZ 150000 |};
      {| TldPriceRow.tld := "co-id"; TldPriceRow.price_usd := ofZ 300000 |} ]
    ++ {| TldPriceRow.tld := "com"; TldPriceRow.price_usd := ofZ 175000 |} :: [] /\
  {| TldPriceRow.tld := "com"; TldPriceRow.price_usd := ofZ 175000 |}
  ∈ DomainPricing.dedupedTldPrices (fun s => s) (fun s => s) tldForm.
Proof.
  assert (Hcleaned :
    DomainPricing.cleanedTldPrices (fun s => s) (fun s => s) tldForm
    = [ {| TldPriceRow.tld := "com"; TldPriceRow.price_usd := ofZ 150000 |};
        {| TldPriceRow.tld := "co-id"; TldPriceRow.price_usd := ofZ 300000 |} ]
      ++ {| TldPriceRow.tld := "com"; TldPriceRow.price_usd := ofZ 175000 |} :: [])
    by reflexivity.
  split; [exact Hcleaned|].
  apply (proj1 (proj2 (proj2 (dedupedTldPrices_last_wins (fun s => s) (fun s => s)
                                tldForm))) _ _ [] Hcleaned).
  intros r' Hr'. by apply not_elem_of_nil in Hr'.
Defined.

(* ===================================================================== *)
(** ** Domain search *)
(* ===================================================================== *)

Section KeywordFacts.

Import ChooseDomain.






End KeywordFacts.



(** X18.  The result table shows at most ten rows, each with a domain that is
    not empty, taken in order from the suggestions; when at most ten
    suggestions have a domain it shows all of them. *)
Theorem visibleItems_bounds (items : list DomainItem.t) :
  (length (ChooseDomain.visibleItems items) <= 10)%nat /\
  ChooseDomain.visibleItems items `sublist_of` items /\
  Forall (fun it => DomainItem.domain it <> "") (ChooseDomain.visibleItems items) /\
  ((length (filter (fun it => DomainItem.domain it <> "") items) <= 10)%nat ->
   ChooseDomain.visibleItems items
   = filter (fun it => DomainItem.domain it <> "") items).
Proof.
  unfold ChooseDomain.visibleItems. split; [|split; [|split]].
  - rewrite length_take. lia.
  - etrans; [apply sublist_take | apply sublist_filter].
  - apply Forall_take, list.Forall_forall. intros it Hit.
    by apply list_elem_of_filter in Hit as [? _].
  - apply take_ge.
Qed.

Lemma visibleItems_bounds_witness :
  (length (filter (fun it => DomainItem.domain it <> "")
             [ {| DomainItem.domain := "toko.com"; DomainItem.status := "available";
                  DomainItem.price_usd := Some (ofZ 150000) |};
               {| DomainItem.domain := ""; DomainItem.status := "unknown";
                  DomainItem.price_usd := None |} ]) <= 10)%nat /\
  length (ChooseDomain.visibleItems
            [ {| DomainItem.domain := "toko.com"; DomainItem.status := "available";
                 DomainItem.price_usd := Some (ofZ 150000) |};
              {| DomainItem.domain := ""; DomainItem.status := "unknown";
                 DomainItem.price_usd := None |} ]) = 1%nat.
Proof.
  assert (Hlen : (length (filter (fun it => DomainItem.domain it <> "")
             [ {| DomainItem.domain := "toko.com"; DomainItem.status := "available";
                  DomainItem.price_usd := Some (ofZ 150000) |};
               {| DomainItem.domain := ""; DomainItem.status := "unknown";
                  DomainItem.price_usd := None |} ]) <= 10)%nat)
    by (vm_compute; lia).
  split; [exact Hlen|].
  rewrite (proj2 (proj2 (proj2 (visibleItems_bounds _))) Hlen). reflexivity.
Defined.

(* ===================================================================== *)
(** ** Promo revalidation *)
(* ===================================================================== *)

(** X19.  A revalidation with a blank code, with an unavailable total or with
    a rejected code leaves no applied promo, so the total after promo is the
    base total floored at 0; an accepted code with a finite positive discount
    [d] gives [max(0, base - d)]. *)
Theorem revalidation_outcome
    (trim : string -> string) (validatePromoCode : string -> number -> PromoAnswer)
    (promo : string) (base : number) :
  revalidatedPromo trim validatePromoCode promo None = None /\
  (trim promo = "" \/ validatePromoCode (trim promo) base = PromoRejected ->
   revalidatedPromo trim validatePromoCode promo (Some base) = None /\
   Billing.totalAfterPromoUsd (Some base)
     (revalidatedPromo trim validatePromoCode promo (Some base))
   = Some (max zero (sub base zero))) /\
  (forall i c n d,
     trim promo <> "" ->
     validatePromoCode (trim promo) base = PromoAccepted i c n (Fin d) ->
     (0 < d)%Qc ->
     Billing.totalAfterPromoUsd (Some base)
       (revalidatedPromo trim validatePromoCode promo (Some base))
     = Some (max zero (sub base (Fin d)))).
Proof.
  unfold revalidatedPromo. split; [by case_bool_decide | split].
  - intros Hcase.
    assert (Hnone : (if bool_decide (trim promo = "") then None
                     else match validatePromoCode (trim promo) base with
                          | PromoRejected => None
                          | PromoAccepted i c n d =>
                              Some {| AppliedPromo.id := i; AppliedPromo.code := c;
                                      AppliedPromo.promoName := n;
                                      AppliedPromo.discountUsd := d |}
                          end) = None).
    { case_bool_decide as Hblank; [done|]. by destruct Hcase as [? | ->]. }
    by rewrite Hnone.
  - intros i c n d Hcode Hok Hd.
    rewrite bool_decide_eq_false_2 by done. rewrite Hok.
    unfold Billing.totalAfterPromoUsd. cbn [fmap option_fmap option_map nullish
      AppliedPromo.discountUsd isFinite andb].
    by rewrite gtb_zero, bool_decide_eq_true_2.
Qed.

Lemma revalidation_outcome_witness :
  Billing.totalAfterPromoUsd (Some (ofZ 100))
    (revalidatedPromo (fun s => s) (fun _ _ => PromoRejected) "HEMAT30" (Some (ofZ 100)))
  = Some (ofZ 100) /\
  Billing.totalAfterPromoUsd (Some (ofZ 100))
    (revalidatedPromo (fun s => s)
       (fun c _ => PromoAccepted "p1" c "Hemat 30" (ofZ 30)) "HEMAT30" (Some (ofZ 100)))
  = Some (ofZ 70).
Proof.
  split.
  - rewrite (proj2 (proj1 (proj2 (revalidation_outcome (fun s => s)
               (fun _ _ => PromoRejected) "HEMAT30" (ofZ 100))) (or_intror eq_refl))).
    f_equal. js_decide.
  - assert (Hd : (0 < Qc_of_Z 30)%Qc) by js_decide.
    assert (Hcode : "HEMAT30" <> "") by done.
    rewrite (proj2 (proj2 (revalidation_outcome (fun s => s)
               (fun c _ => PromoAccepted "p1" c "Hemat 30" (ofZ 30)) "HEMAT30" (ofZ 100)))
               "p1" "HEMAT30" "Hemat 30" (Qc_of_Z 30) Hcode eq_refl Hd).
    f_equal. js_decide.
Defined.

(* ===================================================================== *)
(** ** Midtrans settings form *)
(* ===================================================================== *)

Section MidtransFacts.

Import Midtrans.

Variable trim : string -> string.
Variable hasWhitespace : string -> bool.

Lemma onSave_inr (e : MidtransEnv) (value : MidtransFormValue) (req : SetRequest) :
  onSave trim hasWhitespace e value = inr req ->
  req = {| env := e; merchant_id := trim (merchantId value);
           client_key := trim (clientKeyField e value);
           server_key := trim (serverKeyField e value) |} /\
  merchantIdPattern (trim (merchantId value)) = true /\
  (hasWhitespace (trim (clientKeyField e value))
   || (String.length (trim (clientKeyField e value)) <? 8) = false) /\
  (hasWhitespace (trim (serverKeyField e value))
   || (String.length (trim (serverKeyField e value)) <? 8) = false).
Proof.
  unfold onSave.
  destruct (bool_decide (trim (merchantId value) = "")); [done|].
  destruct (merchantIdPattern (trim (merchantId value))); [|done].
  destruct (bool_decide (trim (clientKeyField e value) = "")); [done|].
  destruct (bool_decide (trim (serverKeyField e value) = "")); [done|].
  destruct (hasWhitespace (trim (clientKeyField e value))
            || (String.length (trim (clientKeyField e value)) <? 8)); [done|].
  destruct (hasWhitespace (trim (serverKeyField e value))
            || (String.length (trim (serverKeyField e value)) <? 8)); [done|].
  cbn [negb]. by intros [= <-].
Qed.

End MidtransFacts.

(** X20.  A request leaves the Midtrans form only when it is valid: it names
    the environment saved, its merchant id is the trimmed field, of 3 to 64
    characters, all of them letters, digits, [_] or [-], and each key is the
    trimmed field of that environment, of at least 8 characters and free of
    whitespace. *)
Theorem onSave_sends_valid_request
    (trim : string -> string) (hasWhitespace : string -> bool)
    (e : Midtrans.MidtransEnv) (value : Midtrans.MidtransFormValue)
    (req : Midtrans.SetRequest) :
  Midtrans.onSave trim hasWhitespace e value = inr req ->
  Midtrans.env req = e /\
  Midtrans.merchant_id req = trim (Midtrans.merchantId value) /\
  Forall (fun c => Midtrans.merchantIdChar c = true)
         (String.list_ascii_of_string (Midtrans.merchant_id req)) /\
  (3 <= String.length (Midtrans.merchant_id req) <= 64)%nat /\
  Midtrans.client_key req = trim (Midtrans.clientKeyField e value) /\
  Midtrans.server_key req = trim (Midtrans.serverKeyField e value) /\
  (8 <= String.length (Midtrans.client_key req))%nat /\
  (8 <= String.length (Midtrans.server_key req))%nat /\
  hasWhitespace (Midtrans.client_key req) = false /\
  hasWhitespace (Midtrans.server_key req) = false.
Proof.
  intros (-> & Hid & Hclient & Hserver)%onSave_inr. cbn.
  unfold Midtrans.merchantIdPattern in Hid.
  apply andb_true_iff in Hid as [[Hchars Hmin]%andb_true_iff Hmax].
  apply orb_false_iff in Hclient as [Hcw Hcl], Hserver as [Hsw Hsl].
  apply Nat.leb_le in Hmin, Hmax. apply Nat.ltb_ge in Hcl, Hsl.
  repeat split; try done.
  apply list.Forall_forall. intros c Hc.
  apply (proj1 (forallb_forall _ _) Hchars). by apply list_elem_of_In.
Qed.

Lemma onSave_sends_valid_request_witness :
  exists req,
    Midtrans.onSave (fun s => s) (fun _ => false) Midtrans.sandbox midtransForm = inr req /\
    Midtrans.client_key req = "Mid-client-abc" /\
    (3 <= String.length (Midtrans.merchant_id req) <= 64)%nat.
Proof.
  eexists. split; [reflexivity|]. split; [reflexivity|].
  exact (proj1 (proj2 (proj2 (proj2
           (onSave_sends_valid_request (fun s => s) (fun _ => false)
              Midtrans.sandbox midtransForm _ eq_refl))))).
Defined.

(** X21.  Saving one environment never reads the keys typed for the other:
    two forms that agree on the merchant id and on the two keys of the
    environment saved give the same error or the same request, and the patch
    applied after a success empties the two keys of that environment only. *)
Theorem onSave_ignores_other_environment
    (trim : string -> string) (hasWhitespace : string -> bool)
    (e : Midtrans.MidtransEnv) (value value' : Midtrans.MidtransFormValue) :
  Midtrans.merchantId value = Midtrans.merchantId value' ->
  Midtrans.clientKeyField e value = Midtrans.clientKeyField e value' ->
  Midtrans.serverKeyField e value = Midtrans.serverKeyField e value' ->
  Midtrans.onSave trim hasWhitespace e value
  = Midtrans.onSave trim hasWhitespace e value' /\
  (forall e', e' <> e ->
     Midtrans.clientKeyField e' (Midtrans.clearedKeys e value)
     = Midtrans.clientKeyField e' value /\
     Midtrans.serverKeyField e' (Midtrans.clearedKeys e value)
     = Midtrans.serverKeyField e' value) /\
  Midtrans.clientKeyField e (Midtrans.clearedKeys e value) = "" /\
  Midtrans.serverKeyField e (Midtrans.clearedKeys e value) = "" /\
  Midtrans.merchantId (Midtrans.clearedKeys e value) = Midtrans.merchantId value.
Proof.
  intros Hid Hclient Hserver. split; [|split].
  - unfold Midtrans.onSave. by rewrite Hid, Hclient, Hserver.
  - intros e' He'. by destruct e, e'.
  - by destruct e.
Qed.

Lemma onSave_ignores_other_environment_witness :
  Midtrans.onSave (fun s => s) (fun _ => false) Midtrans.sandbox midtransForm
  = Midtrans.onSave (fun s => s) (fun _ => false) Midtrans.sandbox
      (Midtrans.clearedKeys Midtrans.production midtransForm).
Proof.
  exact (proj1 (onSave_ignores_other_environment (fun s => s) (fun _ => false)
                  Midtrans.sandbox midtransForm
                  (Midtrans.clearedKeys Midtrans.production midtransForm)
                  eq_refl eq_refl eq_refl)).
Defined.
